(* ===== verification/_CoqProject ===== *)
-Q . S2P
Prelude.v
Catalog.v
Browser.v
Numeric.v
Page.v
Controller.v
EventLoop.v
Registry.v
Answers.v
Preview.v
Payload.v
Repeat.v
Save.v
UIProtocol.v
