(* ===== verification/Prelude.v ===== *)
(** * A verification development of the image-processing form controller

    The repository is a single browser script, [src/static/script.js]
    (jQuery, 308 lines), the front end of an image-processing service.
    It fills a [<select>] with the algorithm names of five fixed lists,
    translates the displayed labels, previews one or two uploaded images,
    collects numeric parameters through [prompt], assembles a multipart
    [FormData] payload and POSTs it to one of five endpoints, then shows
    the base64 JPEG that comes back.  The pixel algorithms live in a
    remote service that is not part of the repository.

    ** Parts of the program and where they are modelled

    - [Prelude] (this file): the shared vocabulary.  JavaScript strict
      equality on strings ([===], [!==]), [Array.prototype.indexOf]
      ([indexOf], with its [-1] on absence), [undefined] as [None] and
      [String(undefined)], and a small state monad [ST] with its [<-]/[;;]
      notation in [js_scope], in which the event handlers are written.
      The hint databases [js] (resolution) and [js_rw] (rewriting)
      collect the lemmas that decide the [indexOf] tests of the script.
    - [Catalog]: lines 1-121 of the script.  The five algorithm lists,
      the [algorithmLabels] object (as a [gmap string string]),
      [setupSelectInputField] (five appends of [<option>] elements, value
      and text the canonical name) and [translateAlgorithmOptions] (which
      rewrites the text of an option, never its value, when the label
      lookup is truthy).
    - [Browser]: the browser and jQuery facilities the script calls but
      the repository does not contain, modelled from their specifications:
      [FormData] as an ordered list of entries with [append] (a [File]
      stays a file, anything else is converted with [String], so
      [undefined] becomes ["undefined"]), [FileReader.readAsDataURL] with
      its base64 encoding and the strict RFC 4648 decoding [unbase64] an
      image element applies to it, [String.prototype.match] for the
      pattern ['image.*'], and the contract [NumericTest] of
      [$.isNumeric].
    - [Numeric]: [$.isNumeric] of jQuery 3 on the string that [prompt]
      returns: a recogniser of the ECMAScript StringNumericLiteral grammar
      and of the prefix that [parseFloat] reads, which decides when
      [s - parseFloat(s)] is not [NaN]; it is the instance of [NumericTest]
      used by the witnesses.
    - [Page]: the DOM state the script reads and writes, as a record
      ([src] attributes, the two buttons' [disabled] and shown flags, the
      display of [#second-image-div], the options of the select), with
      [buttonsRules] and [saveImage].
    - [Controller]: the [$(document).ready] closure.  Its five closure
      variables ([formData], [algorithmSelected], [file], [file1],
      [urlApiCall]) form a record; every handler ([algorithmSelection],
      [uploadFirstImage], [uploadSecondImage], the five [process*]
      functions and the click handler of [#processImage-button] with its
      [$.ajax] callbacks) is a computation of [ST World], where the world
      also holds the DOM, the log of alerts, the answers still to be given
      to [prompt], the requests sent and the pending asynchronous tasks.
      The early [return] of a [process*] function returns from that
      function only, exactly as in the source.
    - [EventLoop]: the browser's event loop as an inductive step relation
      on worlds: a user event (an option of the select chosen, a file
      chosen for either input, a click on an enabled button, with the
      answers the user gives to the prompts of that click) or the
      completion of any pending task ([FileReader] load, [$.ajax] success
      or error), in any order.  [reachable] is the reflexive-transitive
      closure of [step] from the page after [ready]; the invariant [Inv]
      is proved by rule induction, and sample runs ([run_step]) exhibit
      the races of the script.
    - [Registry]: the abstract contract the spec states (sections 4, 6
      and 9): a registry mapping each algorithm to its category,
      parameters, endpoint and need of a second image, and the request a
      submission should send; the refinement theorem relates it to the
      click handler.
    - [Answers]: [promptNumber] (the prompt, test and append of lines
      199-204, and the five other prompts written the same way) under the
      [Numeric] instance: which typed answers it accepts and what it
      posts.
    - [Preview]: the way of a chosen file to the preview: the data-URL
      decoding of the image element ([parseDataURL]) composed with
      [uploadFirstImage], [uploadSecondImage] and [reader.onload].
    - [Payload]: the schema of the multipart fields ([fieldTyped]) and
      the effect discipline [Appends] (a statement only appends entries
      of a given kind to [formData]), proved for every [process*]
      function with the hint database [appends].
    - [Repeat] and [Save]: repeated identical input to the select change
      handler, and the save handler against the spec's [saveResult].
    - [UIProtocol]: the page's life cycle of the spec (sections 4, 5 and
      8) as an abstract machine on three facts (a preview shown, the
      number of requests in flight, a result shown), and the abstraction
      [alpha] that reads them off a world of [EventLoop]: the [src] of
      [#originalImage] and [#resultImage] and the pending [AjaxCall]
      tasks.  The machine allows several requests in flight, as the
      script does, where the spec's section 5 asks for one.

    ** What the theorems show (see the doc comment of each, C1-C33)

    - Start-up and preview (C1, C2): after [ready], the select offers
      exactly the registry's algorithms, each once, labelled; a chosen
      image reaches the preview as a data URL that decodes back to the
      file's type and bytes (base64 round trip).
    - Controller (C3-C15): a click sends exactly one request; the fields
      and endpoint for each category and parameter count; the
      second-image control is shown exactly for the arithmetic operations
      and the binary bitwise operations (the [a || b && c] of line 148
      has the intended meaning); the defects: an invalid numeric answer
      does not stop the request (it is sent, with the fields appended so
      far, to the endpoint of the previous submission or to
      [undefined]); a rejected file still replaces [file]; the success
      callback shows the result, which saving then downloads, and the
      error callback shows only "Error: ".
    - Browser (C16): the file type test accepts any type containing
      "image".
    - EventLoop (C17-C23): in every reachable state every request
      carries a file under [image], the save button stays disabled, the
      process button is enabled exactly when the preview has a source,
      and a non-empty payload always has its request in flight; concrete
      traces show duplicated fields on a second click, a preview that
      does not match the file sent, and a file that is rejected (alert,
      no load) and still sent.
    - Registry (C24, C25): refinement of the contract by the click
      handler; and the composition of the change handler with the click:
      the request carries [secondImage] exactly when the change handler
      showed the second upload control.
    - Answers (C26): a digit answer, with any whitespace around it, is
      accepted exactly when its value is below the binary64 overflow
      threshold [2^1024 - 2^970], and it is posted as typed, untrimmed.
    - Payload (C27): every request of a reachable page is well typed.
    - Preview, Repeat, Save (C28-C31): a rejected second file is still
      sent as [secondImage]; choosing the same algorithm twice ends in
      the state one choice gives (value stored, control shown by the
      rule), the alert apart; the save handler meets the spec's [saveResult];
      [buttonsRules] against [refreshButtonState]: the save button is
      shown for a result without [src] and never hidden.
    - UIProtocol (C32): every step of the event loop is a step of the
      abstract machine or a stutter, so every reachable world is seen by
      [alpha] as a reachable state of the protocol (forward simulation,
      by rule induction together with [Inv]).
    - EventLoop (C33): a trace in which two requests are answered in
      reverse order leaves the older answer on the page.

    ** Bounds and fuel

    The handlers are straight-line code over finite lists and need no
    fuel; the base64 decoder recurses on the rest of its input, the
    data-URL parser on its prefix.  The only bounded loop is the
    whitespace trimming of [Numeric]
    ([trimN]), run with fuel [length l]: every removal takes at least
    one byte, so the fuel is enough ([trimStart_complete] and
    [trimEnd_complete]).  Numbers are exact integers ([Z]): a decimal
    literal is kept as its digits [m] and a power of ten, and overflow is
    decided by exact comparison with the threshold, with size shortcuts
    proved sound ([overflows_exact]).

    ** Not modelled

    The HTML page (its element ids are the record fields of [Page]), the
    remote service and the pixels of the images, CSS rendering, the texts
    of the [prompt] questions (only the answers matter), and the
    JavaScript prototype chain of [algorithmLabels]: [translateOption]
    looks a text up among the object's own properties only, which is
    faithful for every text that is not the name of a property of
    [Object.prototype] ("toString", "constructor", ...), for which
    jQuery's [.text(function)] would run the inherited function; the
    options the script creates carry catalog names only, and the theorems
    about translation start from a select without other options.
    [$.isNumeric] is modelled on strings only, the one type [prompt]
    returns.  The decoder of data URLs is the strict one of RFC 4648,
    enough for the canonical output of [readAsDataURL]; the leniencies of
    browsers (whitespace, missing padding) are not modelled. *)

From stdpp Require Export base strings list gmap.
From Stdlib Require Export Ascii String ZArith.

Declare Scope js_scope.
Delimit Scope js_scope with js.
Open Scope string_scope.
Open Scope list_scope.
Open Scope js_scope.

Create HintDb js discriminated.
Create Rewrite HintDb js_rw.

(** JavaScript strict equality and inequality on values with decidable
    equality (strings, numbers, files). *)
Notation "x === y" := (bool_decide (x = y)) (at level 70, no associativity) : js_scope.
Notation "x !== y" := (negb (bool_decide (x = y))) (at level 70, no associativity) : js_scope.

(** [String(v)] for a value that is a string or [undefined]. *)
Definition js_String (v : option string) : string :=
  match v with
  | Some s => s
  | None => "undefined"
  end.

(** [Array.prototype.indexOf]: the first index of [x], or [-1]. *)
Fixpoint indexOf {A} `{EqDecision A} (l : list A) (x : A) : Z :=
  match l with
  | [] => (-1)%Z
  | y :: l' =>
      if decide (x = y) then 0%Z
      else let i := indexOf l' x in
           if (i =? -1)%Z then (-1)%Z else (i + 1)%Z
  end.

(** A state monad: the handlers of the script thread the whole world. *)
Definition ST (S A : Type) : Type := S -> A * S.
Definition st_ret {S A} (a : A) : ST S A := fun s => (a, s).
Definition st_bind {S A B} (m : ST S A) (k : A -> ST S B) : ST S B :=
  fun s => let (a, s') := m s in k a s'.
Definition st_get {S} : ST S S := fun s => (s, s).
Definition st_modify {S} (f : S -> S) : ST S unit := fun s => (tt, f s).
Definition st_exec {S A} (m : ST S A) (s : S) : S := snd (m s).

Notation "x <- m ;; k" := (st_bind m (fun x => k))
  (at level 100, m at next level, right associativity) : js_scope.
Notation "m ;; k" := (st_bind m (fun _ => k))
  (at level 100, right associativity) : js_scope.

(** [skip] is the empty statement, e.g. the missing [else] branch. *)
Definition skip {S} : ST S unit := st_ret tt.

(** [indexOf] never returns less than [-1]. *)
Lemma indexOf_ge {A} `{EqDecision A} (l : list A) x : (-1 <= indexOf l x)%Z.
Proof.
  induction l as [|y l IH]; simpl; [lia|].
  case_decide; [lia|]. destruct (Z.eqb_spec (indexOf l x) (-1)); lia.
Qed.

(** The test [l.indexOf(x) !== -1] of the script is membership. *)
Lemma indexOf_found {A} `{EqDecision A} (l : list A) x :
  indexOf l x <> (-1)%Z <-> x ∈ l.
Proof.
  induction l as [|y l IH]; simpl.
  - split; [congruence | intros H; by apply elem_of_nil in H].
  - rewrite elem_of_cons. case_decide as Hxy.
    + split; [auto | lia].
    + pose proof (indexOf_ge l x).
      destruct (Z.eqb_spec (indexOf l x) (-1)); split; intros; naive_solver lia.
Qed.

Lemma indexOf_absent {A} `{EqDecision A} (l : list A) x :
  x ∉ l -> indexOf l x = (-1)%Z.
Proof. intros Hx. destruct (decide (indexOf l x = (-1)%Z)) as [|H]; [done|]. by apply indexOf_found in H. Qed.

Lemma indexOf_present {A} `{EqDecision A} (l : list A) x :
  x ∈ l -> (indexOf l x =? -1)%Z = false.
Proof. intros Hx. apply Z.eqb_neq, indexOf_found, Hx. Qed.

(** The boolean test of the script, [l.indexOf(x) !== -1]. *)
Definition inList {A} `{EqDecision A} (l : list A) (x : A) : bool :=
  negb (indexOf l x =? -1)%Z.

Lemma inList_spec {A} `{EqDecision A} (l : list A) x : inList l x = true <-> x ∈ l.
Proof.
  unfold inList. rewrite negb_true_iff, Z.eqb_neq. apply indexOf_found.
Qed.

Lemma inList_true {A} `{EqDecision A} (l : list A) x : x ∈ l -> inList l x = true.
Proof. apply inList_spec. Qed.

Lemma inList_false {A} `{EqDecision A} (l : list A) x : x ∉ l -> inList l x = false.
Proof. intros H. unfold inList. by rewrite indexOf_absent. Qed.

Lemma inList_false_inv {A} `{EqDecision A} (l : list A) x : inList l x = false -> x ∉ l.
Proof. intros H Hx. apply inList_spec in Hx. congruence. Qed.

#[export] Hint Rewrite @inList_true @inList_false using (by eauto; set_solver) : js_rw.

(** Removing another element of a list keeps [x]. *)
Lemma elem_of_delete_other {A} (l : list A) k x y :
  l !! k = Some y -> x ∈ l -> x <> y -> x ∈ delete k l.
Proof.
  revert k. induction l as [|z l IH]; intros k Hk Hx Hxy; [by apply elem_of_nil in Hx|].
  destruct k as [|k]; simpl in *.
  - injection Hk as ->. apply elem_of_cons in Hx as [->|Hx]; [done|exact Hx].
  - apply elem_of_cons in Hx as [->|Hx]; [apply elem_of_cons; by left|].
    apply elem_of_cons; right. eauto.
Qed.

(** Case analysis on the boolean tests of a goal, then computation. *)
Ltac js_cases :=
  repeat match goal with
  | |- context [bool_decide ?P] => case_bool_decide
  | |- context [inList ?l ?x] => destruct (inList l x) eqn:?
  end.

(** Evaluate every closed boolean equality test of the goal. *)
Ltac eval_closed_decisions :=
  repeat match goal with
  | |- context [bool_decide (?x = ?y)] =>
      let b := eval vm_compute in (bool_decide (x = y)) in
      match b with
      | true => change (bool_decide (x = y)) with true
      | false => change (bool_decide (x = y)) with false
      end
  end.
