(* ===== verification/Catalog.v ===== *)
(** Catalog: the algorithm lists, the label table and the two functions
    that build and translate the options of [#algorithmSelect]
    ([src/static/script.js], lines 1-121).  An [<option>] element is a
    record of its value and its displayed text. *)

From S2P Require Import Prelude.

Module Catalog.

Definition mixedAlgorithms : list string :=
  ["Negative"; "Rescaling"; "Shift&Rescale"; "Bit Plane Slicing"; "Salt&Pepper noise"].

Definition arithmeticOperations : list string :=
  ["Addition"; "Substraction"; "Multiplication"; "Division"].

Definition bitOperations : list string :=
  ["Bitwise Not"; "Bitwise And"; "Bitwise Or"; "Bitwise Xor"].

Definition convolutions : list string :=
  ["Convolution - Averaging";
   "Convolution - Weighted averaging";
   "Convolution - Four Neighbour Laplacian";
   "Convolution - Eight Neighbour Laplacian";
   "Convolution - Four Neighbour Laplacian Enhancement";
   "Convolution - Eight Neighbour Laplacian Enhancement";
   "Convolution - Roberts One";
   "Convolution - Roberts Two";
   "Convolution - Sobel X";
   "Convolution - Sobel Y"].

Definition transformations : list string :=
  ["Logarithmic Transformation"; "Power Law"; "Random LUT"].

(** The object literal [algorithmLabels]: canonical name to label. *)
Definition algorithmLabels : gmap string string :=
  list_to_map
    [("Negative", "负片");
     ("Rescaling", "重新缩放");
     ("Shift&Rescale", "移位和重新缩放");
     ("Bit Plane Slicing", "位平面切片");
     ("Salt&Pepper noise", "椒盐噪声");
     ("Addition", "加法");
     ("Substraction", "减法");
     ("Multiplication", "乘法");
     ("Division", "除法");
     ("Bitwise Not", "按位取反");
     ("Bitwise And", "按位与");
     ("Bitwise Or", "按位或");
     ("Bitwise Xor", "按位异或");
     ("Convolution - Averaging", "卷积 - 平均");
     ("Convolution - Weighted averaging", "卷积 - 加权平均");
     ("Convolution - Four Neighbour Laplacian", "卷积 - 四邻域拉普拉斯");
     ("Convolution - Eight Neighbour Laplacian", "卷积 - 八邻域拉普拉斯");
     ("Convolution - Four Neighbour Laplacian Enhancement", "卷积 - 四邻域拉普拉斯增强");
     ("Convolution - Eight Neighbour Laplacian Enhancement", "卷积 - 八邻域拉普拉斯增强");
     ("Convolution - Roberts One", "卷积 - 罗伯茨一");
     ("Convolution - Roberts Two", "卷积 - 罗伯茨二");
     ("Convolution - Sobel X", "卷积 - 索贝尔 X");
     ("Convolution - Sobel Y", "卷积 - 索贝尔 Y");
     ("Logarithmic Transformation", "对数变换");
     ("Power Law", "幂律变换");
     ("Random LUT", "随机 LUT")].

(** An [<option>] element: [.val()] and [.text()]. *)
Record SelectOption := mkOption { opt_value : string; opt_text : string }.

#[export] Instance SelectOption_eq_dec : EqDecision SelectOption.
Proof. solve_decision. Qed.

(** [$("<option>").text(value).val(value)] *)
Definition newOption (value : string) : SelectOption := mkOption value value.

(** [$.each(list, function(index, value) { algorithmSelect.append(option) })] *)
Definition appendEach (l : list string) (sel : list SelectOption) : list SelectOption :=
  fold_left (fun sel value => sel ++ [newOption value]) l sel.

Definition setupSelectInputField (sel : list SelectOption) : list SelectOption :=
  let sel := appendEach mixedAlgorithms sel in
  let sel := appendEach arithmeticOperations sel in
  let sel := appendEach bitOperations sel in
  let sel := appendEach convolutions sel in
  appendEach transformations sel.

(** The body of the [each] of [translateAlgorithmOptions]: the label is
    used when the lookup [algorithmLabels[text]] is truthy, i.e. defined
    and not the empty string. *)
Definition translateOption (o : SelectOption) : SelectOption :=
  match algorithmLabels !! opt_text o with
  | Some label => if label !== "" then mkOption (opt_value o) label else o
  | None => o
  end.

(** [$("option").each(...)]: every option of the document. *)
Definition translateAlgorithmOptions (options : list SelectOption) : list SelectOption :=
  map translateOption options.

(** Every name of the five lists, in the order of the select. *)
Definition allAlgorithms : list string :=
  mixedAlgorithms ++ arithmeticOperations ++ bitOperations ++ convolutions ++ transformations.

(** The five lists as the categories of the spec's algorithm registry. *)
Inductive Category := Mixed | Arithmetic | Bitwise | Convolution | Transformation.

#[export] Instance Category_eq_dec : EqDecision Category.
Proof. solve_decision. Defined.

Definition categories : list Category := [Mixed; Arithmetic; Bitwise; Convolution; Transformation].

Definition categoryList (k : Category) : list string :=
  match k with
  | Mixed => mixedAlgorithms
  | Arithmetic => arithmeticOperations
  | Bitwise => bitOperations
  | Convolution => convolutions
  | Transformation => transformations
  end.

Lemma appendEach_app l sel : appendEach l sel = sel ++ map newOption l.
Proof.
  revert sel. induction l as [|v l IH]; intros sel; simpl.
  - by rewrite app_nil_r.
  - unfold appendEach in *. simpl. rewrite IH, <- app_assoc. done.
Qed.

(** The five lists are disjoint; no name occurs twice. *)
Lemma allAlgorithms_NoDup : NoDup allAlgorithms.
Proof. apply (bool_decide_unpack _). vm_compute. reflexivity. Qed.

(** Every name of the select has an entry in the label table. *)
Lemma labels_total : Forall (fun a => is_Some (algorithmLabels !! a)) allAlgorithms.
Proof. apply (bool_decide_unpack _). vm_compute. reflexivity. Qed.

(** Every label is truthy: none is the empty string. *)
Lemma labels_nonempty : map_Forall (fun _ l => l <> "") algorithmLabels.
Proof. apply (bool_decide_unpack _). vm_compute. reflexivity. Qed.

(** No label is itself a key of the table. *)
Lemma labels_not_keys :
  map_Forall (fun _ l => algorithmLabels !! l = None) algorithmLabels.
Proof. apply (bool_decide_unpack _). vm_compute. reflexivity. Qed.

(** Translating one option leaves its value alone. *)
Lemma translateOption_value o : opt_value (translateOption o) = opt_value o.
Proof.
  unfold translateOption. destruct (algorithmLabels !! opt_text o) as [l|]; [|reflexivity].
  destruct (bool_decide (l = "")); reflexivity.
Qed.

(** An option whose text has a label is displayed with that label. *)
Lemma translateOption_label o l :
  algorithmLabels !! opt_text o = Some l -> translateOption o = mkOption (opt_value o) l.
Proof.
  intros Hl. unfold translateOption. rewrite Hl.
  rewrite (bool_decide_eq_false_2 (l = "")) by exact (labels_nonempty _ _ Hl).
  reflexivity.
Qed.

(** On a select holding the options [sel] of the page, the start-up
    sequence [setupSelectInputField(); translateAlgorithmOptions();]
    appends one option per catalog name, in list order, whose value is
    the canonical name and whose text is its label. *)
Lemma setup_then_translate (sel : list SelectOption) :
  translateAlgorithmOptions (setupSelectInputField sel) =
  translateAlgorithmOptions sel ++
  map (fun a => mkOption a (default a (algorithmLabels !! a))) allAlgorithms.
Proof.
  unfold setupSelectInputField. rewrite !appendEach_app, <- !app_assoc.
  rewrite <- !map_app. change (mixedAlgorithms ++ _) with allAlgorithms.
  unfold translateAlgorithmOptions. rewrite map_app. apply (f_equal (app _)).
  rewrite map_map.
  apply map_ext_Forall. eapply Forall_impl; [apply labels_total|].
  intros a [l Hl]. rewrite Hl. by apply translateOption_label.
Qed.

(** Translating twice is translating once: no label is a key. *)
Lemma translateOption_idem o : translateOption (translateOption o) = translateOption o.
Proof.
  destruct (algorithmLabels !! opt_text o) as [l|] eqn:Hl.
  - rewrite (translateOption_label o l Hl).
    unfold translateOption at 1. cbn [opt_text]. by rewrite (labels_not_keys _ _ Hl).
  - unfold translateOption. rewrite Hl. rewrite Hl. reflexivity.
Qed.

Lemma translate_idempotent (options : list SelectOption) :
  translateAlgorithmOptions (translateAlgorithmOptions options) =
  translateAlgorithmOptions options.
Proof.
  unfold translateAlgorithmOptions. rewrite map_map.
  apply map_ext, translateOption_idem.
Qed.

(** The membership tests of the script, for a name of category [k]. *)
Lemma categories_separate :
  Forall (fun k => Forall (fun a =>
    map (fun k' => inList (categoryList k') a) categories =
    map (fun k' => bool_decide (k = k')) categories) (categoryList k)) categories.
Proof. apply (bool_decide_unpack _). vm_compute. reflexivity. Qed.

Lemma inList_category k k' a :
  a ∈ categoryList k -> inList (categoryList k') a = bool_decide (k = k').
Proof.
  intros Ha. pose proof categories_separate as H.
  rewrite Forall_forall in H.
  specialize (H k ltac:(apply (bool_decide_unpack _); destruct k; reflexivity)).
  rewrite Forall_forall in H. specialize (H a Ha).
  destruct k'; cbn [map categories] in H; injection H; intros; assumption.
Qed.

Lemma inList_mixed k a : a ∈ categoryList k -> inList mixedAlgorithms a = bool_decide (k = Mixed).
Proof. apply (inList_category k Mixed). Qed.
Lemma inList_arithmetic k a : a ∈ categoryList k -> inList arithmeticOperations a = bool_decide (k = Arithmetic).
Proof. apply (inList_category k Arithmetic). Qed.
Lemma inList_bitwise k a : a ∈ categoryList k -> inList bitOperations a = bool_decide (k = Bitwise).
Proof. apply (inList_category k Bitwise). Qed.
Lemma inList_convolution k a : a ∈ categoryList k -> inList convolutions a = bool_decide (k = Convolution).
Proof. apply (inList_category k Convolution). Qed.
Lemma inList_transformation k a : a ∈ categoryList k -> inList transformations a = bool_decide (k = Transformation).
Proof. apply (inList_category k Transformation). Qed.

(** Decide the five membership tests of the script for a name whose
    category is known from the hypothesis [H : a ∈ categoryList k]. *)
Ltac catalog_tests H :=
  rewrite ?(inList_mixed _ _ H), ?(inList_arithmetic _ _ H), ?(inList_bitwise _ _ H),
    ?(inList_convolution _ _ H), ?(inList_transformation _ _ H);
  cbn [bool_decide decide_rel Category_eq_dec].

End Catalog.
