(* ===== verification/Browser.v ===== *)
(** Browser: the platform objects the script calls and the repository does
    not contain, modelled from their specifications: [File], [FormData]
    (an ordered list of entries, duplicates kept), [FileReader]'s
    [readAsDataURL] with its base64 encoding, [String.prototype.match]
    with the pattern ['image.*'], and the contract of jQuery's
    [$.isNumeric] as a type class. *)

From S2P Require Import Prelude.

Module Browser.

(** A [File] of an [<input type="file">]: its name, its declared media
    type ([file.type]) and its bytes, one [ascii] per byte. *)
Record File := mkFile { file_name : string; file_type : string; file_content : string }.

#[export] Instance File_eq_dec : EqDecision File.
Proof. solve_decision. Defined.

(** An entry value of a [FormData]: a file stays a file, every other
    value is converted to a string. *)
Inductive FormValue := FVString (s : string) | FVFile (f : File).

#[export] Instance FormValue_eq_dec : EqDecision FormValue.
Proof. solve_decision. Defined.

Definition FormData : Type := list (string * FormValue).

(** [new FormData()] *)
Definition FormData_new : FormData := [].

(** [formData.append(name, value)]: adds an entry at the end. *)
Definition append (name : string) (value : FormValue) (fd : FormData) : FormData :=
  fd ++ [(name, value)].

(** The value [formData.append] receives from a variable holding a file
    or [undefined]: [String(undefined)] is ["undefined"]. *)
Definition fileValue (f : option File) : FormValue :=
  match f with
  | Some f => FVFile f
  | None => FVString "undefined"
  end.

(** The same for a variable holding a string or [undefined]. *)
Definition stringValue (s : option string) : FormValue := FVString (js_String s).

(** base64 of RFC 4648, as [btoa] and [readAsDataURL] produce it. *)
Definition base64Alphabet : string :=
  "ABCDEFGHIJKLMNOPQRSTUVWXYZabcdefghijklmnopqrstuvwxyz0123456789+/".

Definition b64char (n : N) : string :=
  String (default "A"%char (String.get (N.to_nat n) base64Alphabet)) EmptyString.

Definition byte (c : Ascii.ascii) : N := Ascii.N_of_ascii c.

(** Three bytes give four characters; a final group of two or one byte
    is padded with one or two [=]. *)
Fixpoint base64 (bytes : list Ascii.ascii) : string :=
  match bytes with
  | a :: b :: c :: rest =>
      let n := (byte a * 65536 + byte b * 256 + byte c)%N in
      (b64char (n / 262144) ++ b64char (n / 4096 mod 64) ++
       b64char (n / 64 mod 64) ++ b64char (n mod 64) ++ base64 rest)%string
  | [a; b] =>
      let n := (byte a * 65536 + byte b * 256)%N in
      (b64char (n / 262144) ++ b64char (n / 4096 mod 64) ++ b64char (n / 64 mod 64) ++ "=")%string
  | [a] =>
      let n := (byte a * 65536)%N in
      (b64char (n / 262144) ++ b64char (n / 4096 mod 64) ++ "==")%string
  | [] => ""
  end.

(** [reader.readAsDataURL(file)]: the [result] of the [load] event. *)
Definition readAsDataURL (f : File) : string :=
  ("data:" ++ file_type f ++ ";base64," ++ base64 (list_ascii_of_string (file_content f)))%string.

(** Decoding, as the [<img>] element does with the [src] it is given:
    the strict base64 of RFC 4648 (groups of four characters, padding
    only in the last group). *)
Fixpoint indexIn (c : Ascii.ascii) (l : list Ascii.ascii) : option N :=
  match l with
  | [] => None
  | d :: l' => if decide (c = d) then Some 0%N else N.succ <$> indexIn c l'
  end.

Definition sextet (c : Ascii.ascii) : option N := indexIn c (list_ascii_of_string base64Alphabet).

(** Four sextets give three bytes. *)
Definition group (s1 s2 s3 s4 : N) : list Ascii.ascii :=
  let n := (s1 * 262144 + s2 * 4096 + s3 * 64 + s4)%N in
  [Ascii.ascii_of_N (n / 65536); Ascii.ascii_of_N (n / 256 mod 256); Ascii.ascii_of_N (n mod 256)].

Fixpoint unbase64 (l : list Ascii.ascii) : option (list Ascii.ascii) :=
  match l with
  | [] => Some []
  | c1 :: c2 :: c3 :: c4 :: rest =>
      match sextet c1, sextet c2 with
      | Some s1, Some s2 =>
          if decide (c3 = "="%char) then
            if decide (c4 = "="%char) then
              match rest with [] => Some (take 1 (group s1 s2 0 0)) | _ => None end
            else None
          else
            match sextet c3 with
            | Some s3 =>
                if decide (c4 = "="%char) then
                  match rest with [] => Some (take 2 (group s1 s2 s3 0)) | _ => None end
                else
                  match sextet c4 with
                  | Some s4 => (group s1 s2 s3 s4 ++.) <$> unbase64 rest
                  | None => None
                  end
            | None => None
            end
      | _, _ => None
      end
  | _ => None
  end.

(** Whether [needle] occurs in [hay] at some position. *)
Fixpoint containsAt (needle hay : string) : bool :=
  String.prefix needle hay ||
  match hay with
  | EmptyString => false
  | String _ rest => containsAt needle rest
  end.

(** [type.match('image.*')]: the string is turned into the regular
    expression [/image.*/], unanchored; [.*] may match the empty string,
    so the match succeeds exactly when "image" occurs in the type. *)
Definition matchImage (type : string) : bool := containsAt "image" type.

(** The contract of [$.isNumeric] on the value [prompt] returns: a string,
    or [null] when the dialog is cancelled. *)
Class NumericTest := isNumeric : option string -> bool.

Class NumericTestLaws `{NumericTest} := {
  isNumeric_null : isNumeric None = false;
  isNumeric_empty : isNumeric (Some "") = false
}.

(** stdpp makes [String.append] opaque to [simpl]; its equation. *)
Lemma append_String c (p q : string) : (String c p ++ q)%string = String c (p ++ q).
Proof. reflexivity. Qed.

Lemma prefix_spec (p t : string) : String.prefix p t = true <-> exists q, t = (p ++ q)%string.
Proof.
  revert t. induction p as [|c p IH]; intros t; destruct t as [|d t]; simpl.
  - split; [intros _; by exists ""%string | done].
  - split; [intros _; by exists (String d t) | done].
  - split; [done | intros [q Hq]; rewrite append_String in Hq; discriminate].
  - destruct (Ascii.ascii_dec c d) as [->|Hcd].
    + rewrite IH. split; intros [q Hq]; exists q; rewrite ?append_String in *; congruence.
    + split; [done | intros [q Hq]; rewrite ?append_String in *; congruence].
Qed.

Lemma list_ascii_of_string_app (p q : string) :
  list_ascii_of_string (p ++ q) = list_ascii_of_string p ++ list_ascii_of_string q.
Proof. induction p as [|c p IH]; [done|]. rewrite append_String. simpl. by rewrite IH. Qed.

(** A data URL is never empty. *)
Lemma readAsDataURL_nonempty f : readAsDataURL f <> "".
Proof. unfold readAsDataURL. rewrite append_String. discriminate. Qed.

(** The character of sextet [k]. *)
Definition b64digit (k : N) : Ascii.ascii := default "A"%char (String.get (N.to_nat k) base64Alphabet).

Lemma b64char_cons k (s : string) : list_ascii_of_string (b64char k ++ s) = b64digit k :: list_ascii_of_string s.
Proof. reflexivity. Qed.

(** The 64 characters decode to their index and none is the padding. *)
Lemma alphabet_table :
  Forall (fun k => sextet (b64digit (N.of_nat k)) = Some (N.of_nat k) /\ b64digit (N.of_nat k) <> "="%char) (seq 0 64).
Proof. apply (bool_decide_unpack _). vm_compute. reflexivity. Qed.

Lemma sextet_b64digit k : (k < 64)%N -> sextet (b64digit k) = Some k /\ b64digit k <> "="%char.
Proof.
  intros Hk. pose proof (proj1 (Forall_forall _ _) alphabet_table (N.to_nat k)) as H.
  specialize (H ltac:(apply list_elem_of_In, in_seq; lia)). cbv beta in H. by rewrite N2Nat.id in H.
Qed.

(** The four sextets of a number put back together. *)
Lemma digits4 (n : N) :
  (n / 262144 * 262144 + n / 4096 mod 64 * 4096 + n / 64 mod 64 * 64 + n mod 64 = n)%N.
Proof.
  replace 262144%N with (64 * 64 * 64)%N by reflexivity. replace 4096%N with (64 * 64)%N by reflexivity.
  rewrite <- !N.Div0.div_div.
  pose proof (N.div_mod n 64 ltac:(lia)) as E1.
  pose proof (N.div_mod (n / 64) 64 ltac:(lia)) as E2.
  pose proof (N.div_mod (n / 64 / 64) 64 ltac:(lia)) as E3.
  generalize dependent (n / 64 / 64 / 64)%N. generalize dependent (n / 64 / 64 mod 64)%N.
  generalize dependent (n / 64 mod 64)%N. generalize dependent (n mod 64)%N.
  generalize dependent (n / 64 / 64)%N. generalize dependent (n / 64)%N. intros. lia.
Qed.

(** The three bytes of a number below [2^24]. *)
Lemma bytes3 (x y z : N) : (x < 256 -> y < 256 -> z < 256 ->
  (x * 65536 + y * 256 + z) / 65536 = x /\ (x * 65536 + y * 256 + z) / 256 mod 256 = y /\
  (x * 65536 + y * 256 + z) mod 256 = z)%N.
Proof.
  intros. split; [|split].
  - symmetry. apply (N.div_unique _ _ _ (y * 256 + z)); lia.
  - rewrite <- (N.div_unique (x * 65536 + y * 256 + z) 256 (x * 256 + y) z) by lia.
    symmetry. apply (N.mod_unique _ _ x); lia.
  - symmetry. apply (N.mod_unique _ _ (x * 256 + y)); lia.
Qed.

(** A group decodes to the bytes it was made of. *)
Lemma group_bytes (x y z : N) : (x < 256 -> y < 256 -> z < 256 ->
  let n := x * 65536 + y * 256 + z in
  group (n / 262144) (n / 4096 mod 64) (n / 64 mod 64) (n mod 64) =
  [Ascii.ascii_of_N x; Ascii.ascii_of_N y; Ascii.ascii_of_N z])%N.
Proof.
  intros Hx Hy Hz n. unfold group. rewrite digits4. subst n.
  destruct (bytes3 x y z Hx Hy Hz) as (-> & -> & ->). reflexivity.
Qed.

Lemma byte_bound a : (byte a < 256)%N.
Proof. apply N_ascii_bounded. Qed.

Lemma byte_embedding a : Ascii.ascii_of_N (byte a) = a.
Proof. apply ascii_N_embedding. Qed.

(** The index of every character of an encoding group is a sextet. *)
Lemma sextets_of_group (n : N) : (n < 16777216 ->
  n / 262144 < 64 /\ n / 4096 mod 64 < 64 /\ n / 64 mod 64 < 64 /\ n mod 64 < 64)%N.
Proof.
  intros Hn. repeat split; try (apply N.mod_lt; lia).
  apply N.Div0.div_lt_upper_bound. lia.
Qed.

(** Round trip: decoding the base64 of any bytes gives them back. *)
Lemma unbase64_base64 (l : list Ascii.ascii) : unbase64 (list_ascii_of_string (base64 l)) = Some l.
Proof.
  induction l as [m IH] using (induction_ltof1 _ (@List.length Ascii.ascii)); unfold ltof in IH.
  destruct m as [|a [|b [|c rest]]]; [reflexivity | | |].
  - cbn [base64]. rewrite !b64char_cons. cbn [list_ascii_of_string unbase64].
    set (n := (byte a * 65536)%N).
    pose proof (byte_bound a).
    destruct (sextets_of_group n ltac:(subst n; lia)) as (S1 & S2 & _).
    destruct (sextet_b64digit _ S1) as [-> _], (sextet_b64digit _ S2) as [-> _].
    rewrite !decide_True by reflexivity.
    assert (E : (n / 64 mod 64 = 0 /\ n mod 64 = 0)%N).
    { subst n. split; [|symmetry; apply (N.mod_unique _ _ (byte a * 1024)); lia].
      rewrite <- (N.div_unique _ 64 (byte a * 1024) 0) by lia. symmetry. apply (N.mod_unique _ _ (byte a * 16)); lia. }
    destruct E as [E3 E4].
    replace (group (n / 262144) (n / 4096 mod 64) 0 0)
      with (group (n / 262144) (n / 4096 mod 64) (n / 64 mod 64) (n mod 64)) by (by rewrite E3, E4).
    pose proof (group_bytes (byte a) 0 0 (byte_bound a) ltac:(lia) ltac:(lia)) as G.
    rewrite !N.add_0_r in G. cbv zeta in G. fold n in G. rewrite G. cbn. by rewrite byte_embedding.
  - cbn [base64]. rewrite !b64char_cons. cbn [list_ascii_of_string unbase64].
    set (n := (byte a * 65536 + byte b * 256)%N).
    pose proof (byte_bound a). pose proof (byte_bound b).
    destruct (sextets_of_group n ltac:(subst n; lia)) as (S1 & S2 & S3 & _).
    destruct (sextet_b64digit _ S1) as [-> _], (sextet_b64digit _ S2) as [-> _],
      (sextet_b64digit _ S3) as [-> Hne3].
    rewrite decide_False by exact Hne3. rewrite decide_True by reflexivity.
    assert (E4 : (n mod 64 = 0)%N) by (subst n; symmetry; apply (N.mod_unique _ _ (byte a * 1024 + byte b * 4)); lia).
    replace (group (n / 262144) (n / 4096 mod 64) (n / 64 mod 64) 0)
      with (group (n / 262144) (n / 4096 mod 64) (n / 64 mod 64) (n mod 64)) by (by rewrite E4).
    pose proof (group_bytes (byte a) (byte b) 0 (byte_bound a) (byte_bound b) ltac:(lia)) as G.
    rewrite !N.add_0_r in G. cbv zeta in G. fold n in G. rewrite G. cbn. by rewrite !byte_embedding.
  - cbn [base64]. rewrite !b64char_cons. cbn [list_ascii_of_string unbase64].
    set (n := (byte a * 65536 + byte b * 256 + byte c)%N).
    pose proof (byte_bound a). pose proof (byte_bound b). pose proof (byte_bound c).
    destruct (sextets_of_group n ltac:(subst n; lia)) as (S1 & S2 & S3 & S4).
    destruct (sextet_b64digit _ S1) as [-> _], (sextet_b64digit _ S2) as [-> _],
      (sextet_b64digit _ S3) as [-> Hne3], (sextet_b64digit _ S4) as [-> Hne4].
    rewrite !decide_False by assumption.
    rewrite (IH rest) by (cbn; lia). cbn [fmap option_fmap option_map].
    pose proof (group_bytes (byte a) (byte b) (byte c) (byte_bound a) (byte_bound b) (byte_bound c)) as G.
    cbv zeta in G. fold n in G. rewrite G. by rewrite !byte_embedding.
Qed.

(** C16: the test [file.type.match('image.*')] of lines 162 and 181
    accepts a media type exactly when "image" occurs somewhere in it: so
    it accepts "application/x-image" or "text/image-list" as well, while
    the spec says the type must begin with "image". *)
Theorem matchImage_spec (type : string) :
  matchImage type = true <-> exists pre post, type = (pre ++ "image" ++ post)%string.
Proof.
  unfold matchImage. induction type as [|c t IH]; cbn [containsAt].
  - rewrite orb_false_r, prefix_spec. split.
    + intros [q Hq]. discriminate.
    + intros [[|x pre] [post Hp]]; [discriminate | rewrite append_String in Hp; discriminate].
  - rewrite orb_true_iff, prefix_spec, IH. split.
    + intros [[q Hq] | [pre [post Hp]]].
      * exists ""%string, q. exact Hq.
      * exists (String c pre), post. rewrite Hp. reflexivity.
    + intros [[|x pre] [post Hp]].
      * left. exists post. exact Hp.
      * right. rewrite append_String in Hp. injection Hp as -> Hp. eauto.
Qed.

End Browser.
