(* ===== verification/Numeric.v ===== *)
(** Numeric: jQuery 3's [$.isNumeric], the test the script applies to
    every answer of [prompt]:
      [(type === "number" || type === "string") && !isNaN(obj - parseFloat(obj))].
    On a string [s], [obj - parseFloat(obj)] subtracts [parseFloat(s)]
    from [Number(s)] (ECMAScript StringToNumber).  It is [NaN] when
    either side is [NaN] or both are the same infinity.  [Number(s)]
    accepts the whole string, whitespace-trimmed, when it is empty (0), a
    StrDecimalLiteral or a hexadecimal, octal or binary integer literal;
    [parseFloat] reads the longest StrDecimalLiteral prefix after leading
    whitespace.  Hence a string is numeric when, trimmed, it is a finite
    decimal literal, or a non-decimal integer literal (which
    [parseFloat] reads as 0).  A decimal literal is infinite when it is
    [Infinity] or when its value rounds to infinity in binary64, i.e. is
    at least [2^1024 - 2^970].  Strings are UTF-8 byte sequences. *)

From S2P Require Import Prelude Browser.

Module Numeric.
Import Browser.

Definition bytes (l : list nat) : list ascii := map ascii_of_nat l.

(** StrWhiteSpaceChar in UTF-8: TAB, LF, VT, FF, CR, SP, NBSP, ZWNBSP,
    the other Zs spaces, LS and PS. *)
Definition whiteSpaces : list (list ascii) :=
  map bytes
    ([[9]; [10]; [11]; [12]; [13]; [32]; [194; 160]; [239; 187; 191];
      [225; 154; 128]; [226; 128; 168]; [226; 128; 169]; [226; 128; 175];
      [226; 129; 159]; [227; 128; 128]] ++
     map (fun k => [226; 128; 128 + k]) (seq 0 11)).

Fixpoint stripPrefix (p l : list ascii) : option (list ascii) :=
  match p, l with
  | [], _ => Some l
  | c :: p', d :: l' => if decide (c = d) then stripPrefix p' l' else None
  | _ :: _, [] => None
  end.

(** The first whitespace pattern of [ws] that [l] starts with, removed. *)
Definition stripWhiteWith (ws : list (list ascii)) (l : list ascii) : option (list ascii) :=
  head (omap (fun w => stripPrefix w l) ws).

Definition stripWhite : list ascii -> option (list ascii) := stripWhiteWith whiteSpaces.

(** Leading whitespace removed; each step removes at least one byte, so
    [length l] steps suffice. *)
Fixpoint trimN (ws : list (list ascii)) (n : nat) (l : list ascii) : list ascii :=
  match n with
  | 0 => l
  | S n' => match stripWhiteWith ws l with Some l' => trimN ws n' l' | None => l end
  end.

Definition trimStart (l : list ascii) : list ascii := trimN whiteSpaces (List.length l) l.

(** Trailing whitespace removed: the bytes read backwards, each
    whitespace sequence reversed as well. *)
Definition trimEnd (l : list ascii) : list ascii :=
  rev (trimN (map (@rev ascii) whiteSpaces) (List.length l) (rev l)).

Definition isDigit (c : ascii) : bool :=
  bool_decide (48 <= nat_of_ascii c <= 57)%nat.

Fixpoint spanDigits (l : list ascii) : list ascii * list ascii :=
  match l with
  | c :: l' => if isDigit c then let (ds, r) := spanDigits l' in (c :: ds, r) else ([], l)
  | [] => ([], [])
  end.

Definition digitsValue (ds : list ascii) : Z :=
  fold_left (fun acc c => acc * 10 + Z.of_nat (nat_of_ascii c - 48))%Z ds 0%Z.

(** The value of an unsigned decimal literal: [Infinity], or the integer
    [m] of all its digits, the power of ten [scale] it is multiplied by,
    and the number of digits [len] (so [m < 10^len]). *)
Inductive DecVal := DInf | DFin (m scale : Z) (len : nat).

(** ExponentPart, optional: an [e] not followed by digits is not part of
    the literal. *)
Definition exponentPart (l : list ascii) : Z * list ascii :=
  match l with
  | c :: l' =>
      if decide (c = "e"%char \/ c = "E"%char) then
        let '(sgn, l'') :=
          match l' with
          | "+"%char :: r => (1%Z, r)
          | "-"%char :: r => ((-1)%Z, r)
          | _ => (1%Z, l')
          end in
        match spanDigits l'' with
        | ([], _) => (0%Z, l)
        | (ds, r) => ((sgn * digitsValue ds)%Z, r)
        end
      else (0%Z, l)
  | [] => (0%Z, l)
  end.

Definition finiteLiteral (ip fp rest : list ascii) : DecVal * list ascii :=
  let '(e, r) := exponentPart rest in
  (DFin (digitsValue (ip ++ fp)) (e - Z.of_nat (List.length fp)) (List.length (ip ++ fp)), r).

(** The longest prefix of [l] that is a StrUnsignedDecimalLiteral. *)
Definition parseUnsigned (l : list ascii) : option (DecVal * list ascii) :=
  match stripPrefix (list_ascii_of_string "Infinity") l with
  | Some r => Some (DInf, r)
  | None =>
      let '(ip, r1) := spanDigits l in
      match r1 with
      | "."%char :: r2 =>
          let '(fp, r3) := spanDigits r2 in
          match ip, fp with
          | [], [] => None
          | _, _ => Some (finiteLiteral ip fp r3)
          end
      | _ => match ip with [] => None | _ => Some (finiteLiteral ip [] r1) end
      end
  end.

(** The longest prefix that is a StrDecimalLiteral (optional sign); the
    sign does not decide finiteness. *)
Definition parseDecimal (l : list ascii) : option (DecVal * list ascii) :=
  match l with
  | "+"%char :: r | "-"%char :: r => parseUnsigned r
  | _ => parseUnsigned l
  end.

Definition isRadixDigit (radix : nat) (c : ascii) : bool :=
  let n := nat_of_ascii c in
  bool_decide (48 <= n < 48 + Nat.min radix 10)%nat ||
  bool_decide (radix = 16 /\ ((65 <= n <= 70) \/ (97 <= n <= 102)))%nat.

(** NonDecimalIntegerLiteral: [0x]/[0X], [0o]/[0O], [0b]/[0B] and at
    least one digit of the radix, the whole string. *)
Definition nonDecimal (l : list ascii) : bool :=
  match l with
  | "0"%char :: p :: (_ :: _) as ds =>
      let radix :=
        if decide (p = "x"%char \/ p = "X"%char) then 16%nat
        else if decide (p = "o"%char \/ p = "O"%char) then 8%nat
        else if decide (p = "b"%char \/ p = "B"%char) then 2%nat else 0%nat in
      bool_decide (radix <> 0)%nat && forallb (isRadixDigit radix) ds
  | _ => false
  end.

(** The binary64 overflow threshold: the midpoint between the largest
    finite double and [2^1024]; ties round to even, i.e. to infinity. *)
Definition overflowThreshold : Z := (2 ^ 1024 - 2 ^ 970)%Z.

(** Whether [m * 10^scale] (with [m < 10^len]) rounds to infinity.  Far
    from the threshold the answer follows from the sizes; near it the
    comparison is exact. *)
Definition overflows (m scale : Z) (len : nat) : bool :=
  if (m =? 0)%Z then false
  else if (0 <=? scale)%Z then
    if (309 <? scale)%Z then true else (overflowThreshold <=? m * 10 ^ scale)%Z
  else if (Z.of_nat len <=? 308 - scale)%Z then false
  else (overflowThreshold * 10 ^ (- scale) <=? m)%Z.

Definition finiteVal (v : DecVal) : bool :=
  match v with
  | DInf => false
  | DFin m scale len => negb (overflows m scale len)
  end.

(** [$.isNumeric] on the result of [prompt]: [null] is not numeric. *)
Definition jqIsNumeric (o : option string) : bool :=
  match o with
  | None => false
  | Some s =>
      let t := trimEnd (trimStart (list_ascii_of_string s)) in
      match t with
      | [] => false
      | _ =>
          nonDecimal t ||
          match parseDecimal t with
          | Some (v, []) => finiteVal v
          | _ => false
          end
      end
  end.

#[export] Instance jQueryNumericTest : NumericTest := jqIsNumeric.

#[export] Instance jQueryNumericTestLaws : NumericTestLaws.
Proof. split; reflexivity. Qed.

(** ** Properties *)

Lemma stripPrefix_length p l l' : stripPrefix p l = Some l' -> List.length l' + List.length p = List.length l.
Proof.
  revert l. induction p as [|c p IH]; intros [|d l] H; simpl in H; try discriminate.
  - injection H as <-. simpl. lia.
  - injection H as <-. simpl. lia.
  - case_decide; [|discriminate]. apply IH in H. simpl. lia.
Qed.

(** Every pattern is non-empty, forwards and backwards. *)
Lemma whiteSpaces_nonempty : Forall (fun w => w <> []) whiteSpaces /\ Forall (fun w => w <> []) (map (@rev ascii) whiteSpaces).
Proof. split; apply (bool_decide_unpack _); vm_compute; reflexivity. Qed.

(** Each whitespace removal consumes at least one byte. *)
Lemma stripWhiteWith_shorter ws l l' :
  Forall (fun w => w <> []) ws -> stripWhiteWith ws l = Some l' -> List.length l' < List.length l.
Proof.
  unfold stripWhiteWith. intros Hws H. apply head_Some_elem_of in H.
  apply list_elem_of_omap in H as (w & Hw & Hs).
  apply stripPrefix_length in Hs.
  pose proof (proj1 (Forall_forall _ _) Hws w Hw) as Hne.
  destruct w; [done|]. simpl in Hs. lia.
Qed.

Lemma stripWhiteWith_nil ws : Forall (fun w => w <> []) ws -> stripWhiteWith ws [] = None.
Proof.
  unfold stripWhiteWith. induction 1 as [|w ws Hw _ IH]; [done|].
  destruct w; [done|]. exact IH.
Qed.

Lemma trimN_done ws n l :
  Forall (fun w => w <> []) ws -> List.length l <= n -> stripWhiteWith ws (trimN ws n l) = None.
Proof.
  intros Hws. revert l. induction n as [|n IH]; intros l Hn; simpl.
  - destruct l; [by apply stripWhiteWith_nil | simpl in Hn; lia].
  - destruct (stripWhiteWith ws l) as [l'|] eqn:E; [|exact E].
    apply IH. apply stripWhiteWith_shorter in E; [lia | exact Hws].
Qed.

(** The fuel [length l] of [trimStart] and [trimEnd] is enough: no
    whitespace is left at either end, the fixpoint that the unbounded
    trimming of ECMAScript's StringToNumber reaches. *)
Lemma trimStart_complete (l : list ascii) : stripWhite (trimStart l) = None.
Proof. apply trimN_done; [apply whiteSpaces_nonempty | lia]. Qed.

Lemma trimEnd_complete (l : list ascii) : stripWhiteWith (map (@rev ascii) whiteSpaces) (rev (trimEnd l)) = None.
Proof. unfold trimEnd. rewrite rev_involutive. apply trimN_done; [apply whiteSpaces_nonempty | rewrite length_rev; lia]. Qed.

Lemma overflowThreshold_bounds : (10 ^ 308 <= overflowThreshold < 10 ^ 309)%Z.
Proof. unfold overflowThreshold. split; apply Z.leb_le || apply Z.ltb_lt; vm_compute; reflexivity. Qed.

(** The size shortcuts of [overflows] are sound: for a literal whose
    digits form [m < 10^len], [overflows] is exactly the comparison of
    its value [m * 10^scale] with the binary64 overflow threshold (for a
    negative [scale], multiplied out by [10^-scale]). *)
Theorem overflows_exact (m scale : Z) (len : nat) :
  (0 <= m < 10 ^ Z.of_nat len)%Z ->
  overflows m scale len =
  if (0 <=? scale)%Z then (overflowThreshold <=? m * 10 ^ scale)%Z
  else (overflowThreshold * 10 ^ (- scale) <=? m)%Z.
Proof.
  intros [Hm0 Hmlen]. pose proof overflowThreshold_bounds as [HT1 HT2].
  unfold overflows.
  destruct (Z.eqb_spec m 0) as [->|Hm].
  { destruct (Z.leb_spec 0 scale); symmetry; apply Z.leb_gt; [lia|].
    assert (0 < 10 ^ (- scale))%Z by (apply Z.pow_pos_nonneg; lia). nia. }
  destruct (Z.leb_spec 0 scale) as [Hs|Hs].
  - destruct (Z.ltb_spec 309 scale) as [Hbig|]; [|reflexivity].
    symmetry. apply Z.leb_le.
    assert (10 ^ 309 <= 10 ^ scale)%Z by (apply Z.pow_le_mono_r; lia). nia.
  - destruct (Z.leb_spec (Z.of_nat len) (308 - scale)) as [Hsmall|]; [|reflexivity].
    symmetry. apply Z.leb_gt.
    assert (Hp : (10 ^ Z.of_nat len <= 10 ^ 308 * 10 ^ (- scale))%Z).
    { rewrite <- Z.pow_add_r by lia. apply Z.pow_le_mono_r; lia. }
    assert (0 < 10 ^ (- scale))%Z by (apply Z.pow_pos_nonneg; lia). nia.
Qed.

(** ** Strings of decimal digits *)

Definition allDigits (ds : list ascii) : Prop := Forall (fun c => isDigit c = true) ds.

(** No whitespace sequence starts, or ends, with a digit. *)
Definition noDigitHead (ws : list (list ascii)) : bool :=
  forallb (fun w => match w with c :: _ => negb (isDigit c) | [] => false end) ws.

Lemma whiteSpaces_noDigitHead : noDigitHead whiteSpaces = true /\ noDigitHead (map (@rev ascii) whiteSpaces) = true.
Proof. split; vm_compute; reflexivity. Qed.

Lemma stripWhiteWith_digit ws d l :
  noDigitHead ws = true -> isDigit d = true -> stripWhiteWith ws (d :: l) = None.
Proof.
  unfold stripWhiteWith, noDigitHead. intros Hws Hd. induction ws as [|[|c w] ws IH]; [done|done|].
  apply andb_prop in Hws as [Hc Hws].
  assert (Hn : stripPrefix (c :: w) (d :: l) = None).
  { change (stripPrefix (c :: w) (d :: l)) with (if decide (c = d) then stripPrefix w l else None).
    rewrite decide_False; [done|]. intros ->. rewrite Hd in Hc. discriminate. }
  cbn -[stripPrefix]. rewrite Hn. exact (IH Hws).
Qed.

Lemma trimN_stuck ws n l : stripWhiteWith ws l = None -> trimN ws n l = l.
Proof. intros H. destruct n; simpl; [done | by rewrite H]. Qed.

Lemma spanDigits_all ds : allDigits ds -> spanDigits ds = (ds, []).
Proof. induction 1 as [|c ds Hc _ IH]; [done|]. simpl. by rewrite Hc, IH. Qed.

Lemma digitsValue_nonneg ds : (0 <= digitsValue ds)%Z.
Proof.
  unfold digitsValue.
  enough (forall acc, 0 <= acc -> 0 <= fold_left (fun acc c => acc * 10 + Z.of_nat (nat_of_ascii c - 48)) ds acc)%Z
    by (apply H; lia).
  induction ds as [|c ds IH]; intros acc Hacc; simpl; [done|]. apply IH. lia.
Qed.

(** A digit is not a sign, [I] (of [Infinity]) or a radix letter. *)
Lemma parseDecimal_digit d l : isDigit d = true -> parseDecimal (d :: l) = parseUnsigned (d :: l).
Proof. destruct d as [[] [] [] [] [] [] [] []]; intros H; try reflexivity; discriminate. Qed.

Lemma parseDecimal_digits ds :
  ds <> [] -> allDigits ds -> parseDecimal ds = Some (DFin (digitsValue ds) 0 (List.length ds), []).
Proof.
  intros Hne Hds. destruct ds as [|d ds']; [done|].
  assert (Hd : isDigit d = true) by (by inversion Hds).
  rewrite parseDecimal_digit by done. unfold parseUnsigned.
  replace (stripPrefix (list_ascii_of_string "Infinity") (d :: ds')) with (@None (list ascii))
    by (destruct d as [[] [] [] [] [] [] [] []]; done).
  rewrite spanDigits_all by done. unfold finiteLiteral. cbn. by rewrite app_nil_r.
Qed.

Lemma nonDecimal_digits ds : allDigits ds -> nonDecimal ds = false.
Proof.
  intros Hds. destruct ds as [|d [|p r]]; [done | by destruct d as [[] [] [] [] [] [] [] []] |].
  inversion Hds as [|? ? _ Hp]; inversion Hp as [|? ? Hp' _]; subst.
  destruct d as [[] [] [] [] [] [] [] []]; try reflexivity.
  destruct r as [|x r]; [reflexivity|]. cbn [nonDecimal].
  repeat case_decide; try reflexivity; try (rewrite bool_decide_eq_false_2 by done; reflexivity);
    match goal with Hx : p = _ \/ p = _ |- _ => destruct Hx as [->| ->]; discriminate end.
Qed.

(** ** Whitespace padding *)

(** No whitespace sequence is a proper prefix of another (UTF-8 is a
    prefix code). *)
Definition prefixFree (ws : list (list ascii)) : Prop :=
  Forall (fun w => Forall (fun w0 => w = w0 \/ ~ w0 `prefix_of` w) ws) ws.

Lemma whiteSpaces_prefixFree : prefixFree whiteSpaces /\ prefixFree (map (@rev ascii) whiteSpaces).
Proof. split; apply (bool_decide_unpack _); vm_compute; reflexivity. Qed.

Lemma stripPrefix_Some p l r : stripPrefix p l = Some r -> l = p ++ r.
Proof.
  revert l. induction p as [|c p IH]; intros [|d l] H; simpl in H; try discriminate.
  - by injection H as <-.
  - by injection H as <-.
  - case_decide; [subst d; by rewrite (IH l H) | discriminate].
Qed.

Lemma stripPrefix_app p r : stripPrefix p (p ++ r) = Some r.
Proof. induction p as [|c p IH]; [done|]. simpl. by rewrite decide_True. Qed.

Lemma head_omap_unique {A B} (f : A -> option B) (l : list A) y :
  (forall x, x ∈ l -> f x = None \/ f x = Some y) -> (exists x, x ∈ l /\ f x = Some y) ->
  head (omap f l) = Some y.
Proof.
  induction l as [|x l IH]; intros Hall [x0 [Hx0 Hf0]]; [by apply elem_of_nil in Hx0|].
  cbn. destruct (Hall x (list_elem_of_here x l)) as [E|E]; rewrite E; [|done].
  apply IH; [intros; apply Hall; by right|].
  apply elem_of_cons in Hx0 as [->|Hx0]; [congruence | eauto].
Qed.

(** A whole whitespace sequence at the front is removed, and only it. *)
Lemma stripWhiteWith_app ws w z : prefixFree ws -> w ∈ ws -> stripWhiteWith ws (w ++ z) = Some z.
Proof.
  intros Hpf Hw. apply head_omap_unique; [|exists w; split; [done | apply stripPrefix_app]].
  intros w0 Hw0. destruct (stripPrefix w0 (w ++ z)) as [r|] eqn:E; [right|by left].
  apply stripPrefix_Some in E. pose proof (proj1 (Forall_forall _ _) Hpf w Hw) as Rw.
  pose proof (proj1 (Forall_forall _ _) Hpf w0 Hw0) as Rw0.
  rewrite Forall_forall in Rw, Rw0.
  assert (w = w0) as <-.
  { apply app_eq_app in E as (l' & [[Ew _]|[Ew _]]).
    - destruct (Rw w0 Hw0) as [|Hn]; [done|]. destruct Hn. by exists l'.
    - destruct (Rw0 w Hw) as [|Hn]; [done|]. destruct Hn. by exists l'. }
  apply app_inv_head in E. by subst.
Qed.

Lemma length_concat_nonempty (pre : list (list ascii)) :
  Forall (fun w => w <> []) pre -> List.length pre <= List.length (List.concat pre).
Proof. induction 1 as [|[|c w] pre Hw _ IH]; [done|done|]. simpl. rewrite length_app. lia. Qed.

Lemma trimN_pad ws pre x n :
  prefixFree ws -> Forall (fun w => w ∈ ws) pre -> List.length pre <= n -> stripWhiteWith ws x = None ->
  trimN ws n (List.concat pre ++ x) = x.
Proof.
  intros Hpf Hpre. revert n. induction Hpre as [|w pre Hw _ IH]; intros n Hn Hx.
  - by apply trimN_stuck.
  - destruct n as [|n]; [simpl in Hn; lia|]. simpl. rewrite <- app_assoc, stripWhiteWith_app by done.
    apply IH; [simpl in Hn; lia | done].
Qed.

Lemma rev_concat {A} (l : list (list A)) : rev (List.concat l) = List.concat (rev (map (@rev A) l)).
Proof.
  induction l as [|w l IH]; [done|]. simpl. rewrite rev_app_distr, IH, concat_app. simpl. by rewrite app_nil_r.
Qed.

Lemma Forall_whiteSpaces_nonempty pre : Forall (fun w => w ∈ whiteSpaces) pre -> Forall (fun w => w <> []) pre.
Proof.
  intros H. eapply Forall_impl; [exact H|]. intros w Hw. cbv beta in Hw.
  exact (proj1 (Forall_forall _ _) (proj1 whiteSpaces_nonempty) w Hw).
Qed.

(** Trimming a string of digits padded by whitespace sequences on both
    sides gives the digits back. *)
Lemma trim_padded_digits pre ds post :
  ds <> [] -> allDigits ds -> Forall (fun w => w ∈ whiteSpaces) pre -> Forall (fun w => w ∈ whiteSpaces) post ->
  trimEnd (trimStart (List.concat pre ++ ds ++ List.concat post)) = ds.
Proof.
  intros Hne Hds Hpre Hpost.
  destruct whiteSpaces_noDigitHead as [H1 H2]. destruct whiteSpaces_prefixFree as [P1 P2].
  destruct ds as [|d ds']; [done|].
  unfold trimStart. rewrite trimN_pad; [| done | done | | by apply stripWhiteWith_digit; [|inversion Hds]].
  2: { rewrite !length_app. pose proof (length_concat_nonempty pre (Forall_whiteSpaces_nonempty pre Hpre)). lia. }
  unfold trimEnd. rewrite rev_app_distr, rev_concat.
  apply Forall_rev in Hds. destruct (rev (d :: ds')) as [|e r] eqn:E.
  { by apply (f_equal (@List.length ascii)) in E; rewrite length_rev in E. }
  rewrite trimN_pad, <- E, rev_involutive; [done | done | | | ].
  - apply Forall_rev, Forall_forall. intros w Hw. apply list_elem_of_In in Hw.
    apply in_map_iff in Hw as (w' & <- & Hw'). apply list_elem_of_In, in_map, list_elem_of_In.
    apply list_elem_of_In in Hw'. exact (proj1 (Forall_forall _ _) Hpost w' Hw').
  - rewrite length_rev, length_map, !length_app.
    pose proof (length_concat_nonempty post (Forall_whiteSpaces_nonempty post Hpost)). lia.
  - apply stripWhiteWith_digit; [done | by inversion Hds].
Qed.

(** [$.isNumeric] on a non-empty string of decimal digits, padded on
    either side with any whitespace: numeric exactly when the value of
    the digits is below the binary64 overflow threshold. *)
Lemma jqIsNumeric_padded_digits pre ds post :
  ds <> [] -> allDigits ds -> Forall (fun w => w ∈ whiteSpaces) pre -> Forall (fun w => w ∈ whiteSpaces) post ->
  jqIsNumeric (Some (string_of_list_ascii (List.concat pre ++ ds ++ List.concat post))) = (digitsValue ds <? overflowThreshold)%Z.
Proof.
  intros Hne Hds Hpre Hpost. unfold jqIsNumeric.
  rewrite list_ascii_of_string_of_list_ascii, trim_padded_digits by done.
  destruct ds as [|d ds']; [done|]. rewrite nonDecimal_digits, parseDecimal_digits by done.
  cbn [orb finiteVal]. pose proof (digitsValue_nonneg (d :: ds')). pose proof overflowThreshold_bounds.
  unfold overflows. rewrite Z.mul_1_r.
  destruct (Z.eqb_spec (digitsValue (d :: ds')) 0) as [->|]; [symmetry; apply Z.ltb_lt; lia|].
  cbn. destruct (Z.leb_spec overflowThreshold (digitsValue (d :: ds'))), (Z.ltb_spec (digitsValue (d :: ds')) overflowThreshold); done || lia.
Qed.

End Numeric.
