(* ===== verification/Page.v ===== *)
(** Page: the part of the DOM the script reads and writes, as a record
    named after the element ids of the page, and the two functions of
    [src/static/script.js] that only touch the DOM: [buttonsRules]
    (lines 80-92) and [saveImage] (lines 130-142).  An attribute read
    with [.attr("src")] is [None] when the element has no [src]
    attribute, as jQuery returns [undefined] then. *)

From S2P Require Import Prelude Catalog.

Module Page.
Import Catalog.

Record Dom := mkDom {
  originalImage_src : option string;      (** [#originalImage] [src] *)
  originalImage2_src : option string;     (** [#originalImage2] [src] *)
  resultImage_src : option string;        (** [#resultImage] [src] *)
  processButton_disabled : bool;          (** [#processImage-button] [disabled] *)
  saveButton_disabled : bool;             (** [#saveImage-button] [disabled] *)
  saveButton_shown : bool;                (** [#saveImage-button] after [.show()] *)
  secondImageDiv_display : string;        (** [#second-image-div] CSS [display] *)
  algorithmSelect : list SelectOption     (** the [<option>]s of the page *)
}.

Definition set_originalImage_src (v : option string) (d : Dom) : Dom :=
  mkDom v (originalImage2_src d) (resultImage_src d) (processButton_disabled d)
    (saveButton_disabled d) (saveButton_shown d) (secondImageDiv_display d) (algorithmSelect d).
Definition set_originalImage2_src (v : option string) (d : Dom) : Dom :=
  mkDom (originalImage_src d) v (resultImage_src d) (processButton_disabled d)
    (saveButton_disabled d) (saveButton_shown d) (secondImageDiv_display d) (algorithmSelect d).
Definition set_resultImage_src (v : option string) (d : Dom) : Dom :=
  mkDom (originalImage_src d) (originalImage2_src d) v (processButton_disabled d)
    (saveButton_disabled d) (saveButton_shown d) (secondImageDiv_display d) (algorithmSelect d).
Definition set_processButton_disabled (v : bool) (d : Dom) : Dom :=
  mkDom (originalImage_src d) (originalImage2_src d) (resultImage_src d) v
    (saveButton_disabled d) (saveButton_shown d) (secondImageDiv_display d) (algorithmSelect d).
Definition set_saveButton_disabled (v : bool) (d : Dom) : Dom :=
  mkDom (originalImage_src d) (originalImage2_src d) (resultImage_src d) (processButton_disabled d)
    v (saveButton_shown d) (secondImageDiv_display d) (algorithmSelect d).
Definition set_saveButton_shown (v : bool) (d : Dom) : Dom :=
  mkDom (originalImage_src d) (originalImage2_src d) (resultImage_src d) (processButton_disabled d)
    (saveButton_disabled d) v (secondImageDiv_display d) (algorithmSelect d).
Definition set_secondImageDiv_display (v : string) (d : Dom) : Dom :=
  mkDom (originalImage_src d) (originalImage2_src d) (resultImage_src d) (processButton_disabled d)
    (saveButton_disabled d) (saveButton_shown d) v (algorithmSelect d).
Definition set_algorithmSelect (v : list SelectOption) (d : Dom) : Dom :=
  mkDom (originalImage_src d) (originalImage2_src d) (resultImage_src d) (processButton_disabled d)
    (saveButton_disabled d) (saveButton_shown d) (secondImageDiv_display d) v.

(** [buttonsRules()]: the enabling of the save button (line 90) is
    commented out in the source, so the second [if] only shows it. *)
Definition buttonsRules (d : Dom) : Dom :=
  let d :=
    if originalImage_src d === Some "" then
      set_saveButton_disabled true (set_processButton_disabled true d)
    else set_processButton_disabled false d in
  if resultImage_src d !== Some "" then set_saveButton_shown true d else d.

(** What a call of [saveImage()] does: trigger a download of [href]
    under a file name, or show an alert. *)
Inductive SaveOutcome := Download (href name : string) | NothingToSave (msg : string).

(** [saveImage()]: [if (imageSrc)] tests truthiness, so an absent or
    empty [src] gives the alert. *)
Definition saveImage (d : Dom) : SaveOutcome :=
  match resultImage_src d with
  | Some imageSrc =>
      if imageSrc !== "" then Download imageSrc "resultImage.jpg"
      else NothingToSave "No image to save!"
  | None => NothingToSave "No image to save!"
  end.

(** The fields [buttonsRules] never writes. *)
Lemma buttonsRules_srcs d :
  originalImage_src (buttonsRules d) = originalImage_src d /\
  originalImage2_src (buttonsRules d) = originalImage2_src d /\
  resultImage_src (buttonsRules d) = resultImage_src d /\
  secondImageDiv_display (buttonsRules d) = secondImageDiv_display d /\
  algorithmSelect (buttonsRules d) = algorithmSelect d.
Proof. unfold buttonsRules. js_cases; simpl; auto. Qed.

(** [buttonsRules] decides the process button from the preview alone. *)
Lemma buttonsRules_process d :
  processButton_disabled (buttonsRules d) = bool_decide (originalImage_src d = Some "").
Proof. unfold buttonsRules. js_cases; simpl; done. Qed.

(** [buttonsRules] never enables the save button. *)
Lemma buttonsRules_save_disabled d :
  saveButton_disabled d = true -> saveButton_disabled (buttonsRules d) = true.
Proof. intros H. unfold buttonsRules. js_cases; simpl; done. Qed.

End Page.
