(* ===== verification/Controller.v ===== *)
(** Controller: the closure of [$(document).ready] in
    [src/static/script.js] (lines 123-309).  Its closure variables form
    the record [Ctl]; the world adds the DOM, the dialogs, the requests
    sent and the pending asynchronous tasks.  Every handler is a
    computation of [ST World]; a [process*] function that can [return]
    early is a computation of [ST World bool], [false] meaning that it
    returned before its last statement.  [$.isNumeric] is taken through
    the interface [NumericTest], so the theorems hold for any test that
    satisfies it. *)

From S2P Require Import Prelude Catalog Browser Numeric Page.

Module Controller.
Import Catalog Browser Numeric Page.

(** The variables of the closure: [formData], [algorithmSelected],
    [file], [file1] and [urlApiCall] ([undefined] is [None]). *)
Record Ctl := mkCtl {
  formData : FormData;
  algorithmSelected : option string;
  file : option File;
  file1 : option File;
  urlApiCall : option string
}.

(** The preview an outstanding [FileReader] writes when it loads. *)
Inductive Slot := FirstImage | SecondImage.

(** Pending asynchronous work: a [FileReader] whose [onload] has not run
    yet (with the data URL it will deliver), or a [$.ajax] call, by the
    index of its request, whose callback has not run yet. *)
Inductive Task := ReaderLoad (slot : Slot) (result : string) | AjaxCall (id : nat).

(** A request as [$.ajax] sends it: URL ([undefined] makes jQuery post to
    the page's own address), method and the serialised payload. *)
Record Request := mkRequest { req_url : option string; req_type : string; req_data : FormData }.

Record World := mkWorld {
  dom : Dom;
  ctl : Ctl;
  alerts : list string;              (** every [alert] shown, in order *)
  prompts : list (option string);    (** the answers the user will give to [prompt] *)
  requests : list Request;           (** every request sent, in order *)
  downloads : list (string * string);(** every download triggered *)
  tasks : list Task                  (** pending asynchronous callbacks *)
}.

Definition M (A : Type) : Type := ST World A.

(** Statements on the world. *)
Definition modify_dom (f : Dom -> Dom) : M unit :=
  st_modify (fun w => mkWorld (f (dom w)) (ctl w) (alerts w) (prompts w) (requests w) (downloads w) (tasks w)).
Definition modify_ctl (f : Ctl -> Ctl) : M unit :=
  st_modify (fun w => mkWorld (dom w) (f (ctl w)) (alerts w) (prompts w) (requests w) (downloads w) (tasks w)).

(** [alert(msg)] *)
Definition alert (msg : string) : M unit :=
  st_modify (fun w => mkWorld (dom w) (ctl w) (alerts w ++ [msg]) (prompts w) (requests w) (downloads w) (tasks w)).

(** [prompt(msg)]: the user's next answer; [null] (cancel) when the user
    gives none.  The message text is not recorded. *)
Definition prompt (msg : string) : M (option string) :=
  fun w =>
    match prompts w with
    | [] => (None, w)
    | ans :: rest => (ans, mkWorld (dom w) (ctl w) (alerts w) rest (requests w) (downloads w) (tasks w))
    end.

Definition schedule (t : Task) : M unit :=
  st_modify (fun w => mkWorld (dom w) (ctl w) (alerts w) (prompts w) (requests w) (downloads w) (tasks w ++ [t])).

Definition get_ctl : M Ctl := fun w => (ctl w, w).

(** Assignments to the closure variables. *)
Definition set_formData (v : FormData) (c : Ctl) : Ctl :=
  mkCtl v (algorithmSelected c) (file c) (file1 c) (urlApiCall c).
Definition set_algorithmSelected (v : option string) (c : Ctl) : Ctl :=
  mkCtl (formData c) v (file c) (file1 c) (urlApiCall c).
Definition set_file (v : option File) (c : Ctl) : Ctl :=
  mkCtl (formData c) (algorithmSelected c) v (file1 c) (urlApiCall c).
Definition set_file1 (v : option File) (c : Ctl) : Ctl :=
  mkCtl (formData c) (algorithmSelected c) (file c) v (urlApiCall c).
Definition set_urlApiCall (v : option string) (c : Ctl) : Ctl :=
  mkCtl (formData c) (algorithmSelected c) (file c) (file1 c) v.

(** [formData.append(name, value)] on the shared [formData] object. *)
Definition formData_append (name : string) (v : FormValue) : M unit :=
  modify_ctl (fun c => set_formData (append name v (formData c)) c).

(** [list.indexOf(algorithmSelected) !== -1]: [undefined] is in no list. *)
Definition inListOpt (l : list string) (a : option string) : bool :=
  match a with Some a => inList l a | None => false end.

(** Early return: [false] is "returned", [true] is "go on". *)
Definition return_ : M bool := st_ret false.
Definition continue_ : M bool := st_ret true.
Definition seqR (m1 m2 : M bool) : M bool :=
  b <- m1 ;; if b then m2 else return_.

(** The endpoints of lines 224-257. *)
Definition base : string := "http://localhost:8080/imageProcessing/process".
Definition url_mixed : string := base.
Definition url_arithmetic : string := base ++ "/arithmeticOperations".
Definition url_bitwise : string := base ++ "/bitOperations".
Definition url_convolution : string := base ++ "/convolution".
Definition url_transformations : string := base ++ "/transformations".

Section Handlers.
Context `{NT : NumericTest}.

(** The change handler installed by [algorithmSelection()]; [value] is
    [$("#algorithmSelect").val()].  As in JavaScript, [&&] binds tighter
    than [||]. *)
Definition algorithmSelectionChange (value : string) : M unit :=
  modify_ctl (set_algorithmSelected (Some value)) ;;
  c <- get_ctl ;;
  let a := algorithmSelected c in
  if inListOpt arithmeticOperations a || inListOpt bitOperations a && (a !== Some "Bitwise Not") then
    modify_dom (set_secondImageDiv_display "contents") ;;
    alert "Upload a second image to use this algorithm!"
  else modify_dom (set_secondImageDiv_display "none").

(** The change handler of [#customFile2] ([uploadSecondImage()]);
    [files] is [input.files].  [file1] is assigned before the type test. *)
Definition uploadSecondImageChange (files : list File) : M unit :=
  match files with
  | [] => skip
  | f :: _ =>
      modify_ctl (set_file1 (Some f)) ;;
      if matchImage (file_type f) then schedule (ReaderLoad SecondImage (readAsDataURL f))
      else alert "Invalid file format. Please select an image file."
  end.

(** The change handler of [#customFile] ([uploadFirstImage()]). *)
Definition uploadFirstImageChange (files : list File) : M unit :=
  match files with
  | [] => skip
  | f :: _ =>
      modify_ctl (set_file (Some f)) ;;
      if matchImage (file_type f) then schedule (ReaderLoad FirstImage (readAsDataURL f))
      else alert "Invalid file format. Please select an image file."
  end.

(** The [reader.onload] callbacks of the two upload handlers. *)
Definition readerOnload (slot : Slot) (imageDataUrl : string) : M unit :=
  match slot with
  | FirstImage => modify_dom (set_originalImage_src (Some imageDataUrl)) ;; modify_dom buttonsRules
  | SecondImage => modify_dom (set_originalImage2_src (Some imageDataUrl))
  end.

(** One prompted numeric parameter: [var v = prompt(question);
    if (!$.isNumeric(v)) { alert(complaint); return; }
    formData.append(name, v);] *)
Definition promptNumber (question complaint name : string) : M bool :=
  v <- prompt question ;;
  if negb (isNumeric v) then alert complaint ;; return_
  else formData_append name (stringValue v) ;; continue_.

Definition whenSelected (test : option string -> bool) (body : M bool) : M bool :=
  c <- get_ctl ;;
  if test (algorithmSelected c) then body else continue_.

Definition processMixedAlgorithms : M bool :=
  seqR (whenSelected (fun a => (a === Some "Rescaling") || (a === Some "Shift&Rescale"))
          (promptNumber "Insert scaling factor" "Insert a number for the scaling factor!" "scalingFactor"))
  (seqR (whenSelected (fun a => a === Some "Shift&Rescale")
          (promptNumber "Insert shifting value" "Insert a number for the shifting value!" "shiftingValue"))
  (seqR (whenSelected (fun a => a === Some "Bit Plane Slicing")
          (promptNumber "Insert number of bit plane" "Insert a number!" "nBit"))
        (modify_ctl (set_urlApiCall (Some url_mixed)) ;; continue_))).

Definition processArithmeticAlgorithms : M bool :=
  c <- get_ctl ;;
  formData_append "secondImage" (fileValue (file1 c)) ;;
  modify_ctl (set_urlApiCall (Some url_arithmetic)) ;;
  continue_.

Definition processBitOperationsAlgorithms : M bool :=
  c <- get_ctl ;;
  (if algorithmSelected c !== Some "Bitwise Not"
   then formData_append "secondImage" (fileValue (file1 c)) else skip) ;;
  modify_ctl (set_urlApiCall (Some url_bitwise)) ;;
  continue_.

Definition processConvolutions : M bool :=
  modify_ctl (set_urlApiCall (Some url_convolution)) ;; continue_.

Definition processTransformations : M bool :=
  seqR (promptNumber "Insert parameter" "Insert a number!" "param")
       (modify_ctl (set_urlApiCall (Some url_transformations)) ;; continue_).

(** [if (list.indexOf(algorithmSelected) !== -1) process();]: the
    returned value is dropped, so an early return does not stop the
    caller. *)
Definition dispatch (l : list string) (process : M bool) : M unit :=
  c <- get_ctl ;;
  if inListOpt l (algorithmSelected c) then (_ <- process ;; skip) else skip.

(** [$.ajax({url: urlApiCall, type: 'POST', data: formData, ...})]: the
    payload is serialised when the request is sent; the callbacks run
    later, as the task [AjaxCall]. *)
Definition ajax : M unit :=
  fun w =>
    let c := ctl w in
    let r := mkRequest (urlApiCall c) "POST" (formData c) in
    (tt, mkWorld (dom w) c (alerts w) (prompts w) (requests w ++ [r]) (downloads w)
           (tasks w ++ [AjaxCall (List.length (requests w))])).

(** The click handler of [#processImage-button]. *)
Definition processImageClick : M unit :=
  c <- get_ctl ;;
  formData_append "image" (fileValue (file c)) ;;
  formData_append "algorithm" (stringValue (algorithmSelected c)) ;;
  dispatch mixedAlgorithms processMixedAlgorithms ;;
  dispatch arithmeticOperations processArithmeticAlgorithms ;;
  dispatch bitOperations processBitOperationsAlgorithms ;;
  dispatch convolutions processConvolutions ;;
  dispatch transformations processTransformations ;;
  ajax.

End Handlers.

(** The [success] callback of the request. *)
Definition ajaxSuccess (response : string) : M unit :=
  modify_dom (set_resultImage_src (Some ("data:image/jpeg;base64," ++ response)%string)) ;;
  modify_dom buttonsRules ;;
  modify_ctl (set_formData FormData_new).

(** The [error] callback: [alert] shows its first argument only. *)
Definition ajaxError : M unit :=
  alert "Error: " ;;
  modify_ctl (set_formData FormData_new).

(** The click handler of [#saveImage-button]. *)
Definition saveImageClick : M unit :=
  fun w =>
    match saveImage (dom w) with
    | Download href name =>
        (tt, mkWorld (dom w) (ctl w) (alerts w) (prompts w) (requests w) (downloads w ++ [(href, name)]) (tasks w))
    | NothingToSave msg => alert msg w
    end.

(** The start-up sequence of lines 261-263 on the page's DOM; the other
    calls of lines 264-270 only install the handlers above. *)
Definition ready (d : Dom) : Dom :=
  buttonsRules (set_algorithmSelect (translateAlgorithmOptions (setupSelectInputField (algorithmSelect d))) d).

(** The closure variables right after [ready]. *)
Definition initCtl : Ctl := mkCtl FormData_new None None None None.

(** ** Proof library *)

(** A run of a [process*] function leaves everything but [formData],
    [urlApiCall], the dialogs and the prompt answers as it was, and only
    appends to [formData]. *)
Definition grows (w w' : World) : Prop :=
  dom w' = dom w /\ requests w' = requests w /\ tasks w' = tasks w /\
  downloads w' = downloads w /\
  algorithmSelected (ctl w') = algorithmSelected (ctl w) /\
  file (ctl w') = file (ctl w) /\ file1 (ctl w') = file1 (ctl w) /\
  exists extra, formData (ctl w') = formData (ctl w) ++ extra.

Definition Grows {A} (m : M A) : Prop := forall w, grows w (snd (m w)).

Lemma grows_refl w : grows w w.
Proof. repeat split; auto. exists []. by rewrite app_nil_r. Qed.

Lemma grows_trans w1 w2 w3 : grows w1 w2 -> grows w2 w3 -> grows w1 w3.
Proof.
  intros (?&?&?&?&?&?&?&e1&E1) (?&?&?&?&?&?&?&e2&E2).
  repeat split; try congruence. exists (e1 ++ e2). by rewrite E2, E1, app_assoc.
Qed.

Lemma Grows_ret {A} (a : A) : Grows (st_ret a).
Proof. intros w. apply grows_refl. Qed.

Lemma Grows_bind {A B} (m : M A) (k : A -> M B) :
  Grows m -> (forall a, Grows (k a)) -> Grows (st_bind m k).
Proof.
  intros Hm Hk w. unfold st_bind. specialize (Hm w).
  destruct (m w) as [a w']. eapply grows_trans; [exact Hm | apply Hk].
Qed.

Lemma Grows_if {A} (b : bool) (m1 m2 : M A) : Grows m1 -> Grows m2 -> Grows (if b then m1 else m2).
Proof. by destruct b. Qed.

Lemma Grows_get_ctl : Grows get_ctl.
Proof. intros w. apply grows_refl. Qed.

(** A statement that does not touch the fields [grows] constrains. *)
Lemma grows_frame w w' :
  dom w' = dom w -> ctl w' = ctl w -> requests w' = requests w -> tasks w' = tasks w ->
  downloads w' = downloads w -> grows w w'.
Proof. intros ? Hc ? ? ?. repeat split; try congruence. exists []. by rewrite Hc, app_nil_r. Qed.

Lemma Grows_alert msg : Grows (alert msg).
Proof. intros w. by apply grows_frame. Qed.

Lemma Grows_prompt msg : Grows (prompt msg).
Proof. intros w. unfold prompt. destruct (prompts w); by apply grows_frame. Qed.

Lemma Grows_append name v : Grows (formData_append name v).
Proof. intros w. repeat split. by exists [(name, v)]. Qed.

Lemma Grows_url u : Grows (modify_ctl (set_urlApiCall u)).
Proof. intros w. repeat split. exists []. by rewrite app_nil_r. Qed.

Create HintDb grows discriminated.
#[export] Hint Resolve Grows_ret Grows_bind Grows_if Grows_get_ctl Grows_alert Grows_prompt
  Grows_append Grows_url : grows.
#[export] Hint Unfold skip return_ continue_ seqR whenSelected promptNumber : grows.

Ltac solve_grows :=
  repeat autounfold with grows;
  repeat (intros; first [apply Grows_bind | apply Grows_if | solve [eauto with grows]]).

Section ProcessGrows.
Context `{NT : NumericTest}.

Lemma processMixedAlgorithms_grows : Grows processMixedAlgorithms.
Proof. unfold processMixedAlgorithms. solve_grows. Qed.
Lemma processArithmeticAlgorithms_grows : Grows processArithmeticAlgorithms.
Proof. unfold processArithmeticAlgorithms. solve_grows. Qed.
Lemma processBitOperationsAlgorithms_grows : Grows processBitOperationsAlgorithms.
Proof. unfold processBitOperationsAlgorithms. solve_grows. Qed.
Lemma processConvolutions_grows : Grows processConvolutions.
Proof. unfold processConvolutions. solve_grows. Qed.
Lemma processTransformations_grows : Grows processTransformations.
Proof. unfold processTransformations. solve_grows. Qed.

Lemma dispatch_grows l (p : M bool) : Grows p -> Grows (dispatch l p).
Proof. intros Hp. unfold dispatch. solve_grows. Qed.

End ProcessGrows.

(** A statement that sends exactly one request: the payload extends the
    [formData] it started from, and the [AjaxCall] task is scheduled. *)
Definition PostsOnce (m : M unit) : Prop :=
  forall w, exists url extra,
    requests (snd (m w)) = requests w ++ [mkRequest url "POST" (formData (ctl w) ++ extra)] /\
    tasks (snd (m w)) = tasks w ++ [AjaxCall (List.length (requests w))] /\
    dom (snd (m w)) = dom w /\ file (ctl (snd (m w))) = file (ctl w) /\
    downloads (snd (m w)) = downloads w.

Lemma PostsOnce_ajax : PostsOnce ajax.
Proof. intros w. exists (urlApiCall (ctl w)), []. by rewrite app_nil_r. Qed.

Lemma PostsOnce_seq (m : M unit) k : Grows m -> PostsOnce k -> PostsOnce (m ;; k).
Proof.
  intros Hm Hk w. unfold st_bind. specialize (Hm w).
  destruct (m w) as [[] w'] eqn:E; simpl in Hm.
  destruct Hm as (Hd & Hr & Ht & Hdl & _ & Hf & _ & e & He).
  destruct (Hk w') as (url & extra & Hr' & Ht' & Hd' & Hf' & Hdl').
  exists url, (e ++ extra). rewrite Hr', Ht', Hd', Hf', Hdl', Hr, Ht, Hd, Hf, Hdl, He, <- app_assoc. done.
Qed.

(** Symbolic execution of a handler on a world given field by field:
    unfold the statements, decide the catalog tests with the hypothesis
    [H : a ∈ categoryList k] and the closed comparisons, reduce. *)
Ltac js_step H :=
  cbv [st_bind st_ret st_get st_modify st_exec skip get_ctl modify_ctl modify_dom alert schedule
       formData_append inListOpt seqR return_ continue_ whenSelected promptNumber dispatch ajax prompt
       processImageClick processMixedAlgorithms processArithmeticAlgorithms
       processBitOperationsAlgorithms processConvolutions processTransformations];
  cbn [ctl dom alerts prompts requests tasks downloads formData algorithmSelected file file1 urlApiCall
       set_formData set_algorithmSelected set_file set_file1 set_urlApiCall fst snd negb orb andb
       fmap list_fmap app];
  catalog_tests H; eval_closed_decisions;
  repeat match goal with
  | Hb : ?t = true |- context [?t] => rewrite Hb
  | Hb : ?t = false |- context [?t] => rewrite Hb
  end;
  lazy beta iota zeta.

Ltac run_click H :=
  repeat progress (js_step H);
  unfold append, stringValue, js_String;
  rewrite <- ?app_assoc, ?app_nil_r; cbn [app];
  repeat split; try reflexivity.

(** Introduce [Ha : x ∈ categoryList k] for the algorithm [x] the goal
    sends, when [x] is a closed name of category [k]. *)
Ltac category_hyp k :=
  match goal with
  | |- context [("algorithm", FVString ?x)] =>
      assert (Ha : x ∈ categoryList k) by (apply (bool_decide_unpack _); reflexivity)
  end.

Section ClickProperties.
Context `{NT : NumericTest}.

(** The effect of a click on the fields the invariants follow. *)
Lemma processImageClick_effect (w : World) :
  exists url extra,
    requests (st_exec processImageClick w) =
    requests w ++ [mkRequest url "POST"
      (formData (ctl w) ++ [("image", fileValue (file (ctl w)));
                            ("algorithm", stringValue (algorithmSelected (ctl w)))] ++ extra)] /\
    tasks (st_exec processImageClick w) = tasks w ++ [AjaxCall (List.length (requests w))] /\
    dom (st_exec processImageClick w) = dom w /\
    file (ctl (st_exec processImageClick w)) = file (ctl w) /\
    downloads (st_exec processImageClick w) = downloads w.
Proof.
  pose (tail := dispatch mixedAlgorithms processMixedAlgorithms ;;
                dispatch arithmeticOperations processArithmeticAlgorithms ;;
                dispatch bitOperations processBitOperationsAlgorithms ;;
                dispatch convolutions processConvolutions ;;
                dispatch transformations processTransformations ;; ajax).
  assert (Ht : PostsOnce tail).
  { unfold tail. repeat apply PostsOnce_seq; auto using dispatch_grows, PostsOnce_ajax,
      processMixedAlgorithms_grows, processArithmeticAlgorithms_grows,
      processBitOperationsAlgorithms_grows, processConvolutions_grows, processTransformations_grows. }
  pose (w2 := snd (formData_append "algorithm" (stringValue (algorithmSelected (ctl w)))
                    (snd (formData_append "image" (fileValue (file (ctl w))) w)))).
  change (st_exec processImageClick w) with (snd (tail w2)).
  destruct (Ht w2) as (url & extra & H1 & H2 & H3 & H4 & H5).
  exists url, extra. rewrite H1, H2, H3, H4, H5. cbn. unfold append. rewrite <- !app_assoc. done.
Qed.

(** C3: whatever the selected algorithm and whatever the user answers to
    the prompts, a click on the process button sends exactly one POST
    request and schedules its callback; the payload is the [formData]
    left from before, then [image] (the first file, or the string
    "undefined"), then [algorithm], then whatever the [process*]
    function appended.  In particular an invalid numeric answer never
    prevents the request (spec, section 4: "the whole submit operation
    aborts"). *)
Theorem processImageClick_posts_once (w : World) :
  exists url extra,
    requests (st_exec processImageClick w) =
    requests w ++ [mkRequest url "POST"
      (formData (ctl w) ++ [("image", fileValue (file (ctl w)));
                            ("algorithm", stringValue (algorithmSelected (ctl w)))] ++ extra)] /\
    tasks (st_exec processImageClick w) = tasks w ++ [AjaxCall (List.length (requests w))] /\
    dom (st_exec processImageClick w) = dom w.
Proof.
  destruct (processImageClick_effect w) as (url & extra & H1 & H2 & H3 & _).
  eauto.
Qed.

(** C4: for "Rescaling" and "Bit Plane Slicing", the answer to the one
    prompt decides the request: a numeric answer is sent under its field
    ([scalingFactor], [nBit]) to the mixed endpoint; any other answer (or
    a cancelled prompt) shows the alert, and the request is still sent,
    without the field, to the URL of the previous submission
    ([undefined] on the first one). *)
Theorem click_one_parameter (w : World) a field complaint ans rest :
  (a, field, complaint) = ("Rescaling", "scalingFactor", "Insert a number for the scaling factor!") \/
  (a, field, complaint) = ("Bit Plane Slicing", "nBit", "Insert a number!") ->
  algorithmSelected (ctl w) = Some a -> prompts w = ans :: rest ->
  let w' := st_exec processImageClick w in
  requests w' = requests w ++
    [mkRequest (if isNumeric ans then Some url_mixed else urlApiCall (ctl w)) "POST"
       (formData (ctl w) ++ [("image", fileValue (file (ctl w))); ("algorithm", FVString a)] ++
        (if isNumeric ans then [(field, stringValue ans)] else []))] /\
  alerts w' = alerts w ++ (if isNumeric ans then [] else [complaint]) /\
  prompts w' = rest.
Proof.
  intros Hk Hal Hpr. destruct w as [d [fd al f f1 url] als pr rq dl ts]; cbn in Hal, Hpr; subst al pr.
  destruct Hk as [Hk|Hk]; injection Hk as -> -> ->; category_hyp Mixed;
  destruct (isNumeric ans) eqn:En; run_click Ha.
Qed.

(** C5: for "Shift&Rescale" the two prompts are validated in turn.  Two
    numeric answers send [scalingFactor] then [shiftingValue] to the
    mixed endpoint.  A non-numeric scaling factor stops the function
    before the second prompt; a numeric scaling factor followed by a
    non-numeric shifting value sends a partial payload with
    [scalingFactor] only.  Both failures still send the request, to the
    previous URL. *)
Theorem click_shift_rescale (w : World) sf sv rest :
  algorithmSelected (ctl w) = Some "Shift&Rescale" -> prompts w = sf :: sv :: rest ->
  let w' := st_exec processImageClick w in
  let ok := isNumeric sf && isNumeric sv in
  requests w' = requests w ++
    [mkRequest (if ok then Some url_mixed else urlApiCall (ctl w)) "POST"
       (formData (ctl w) ++ [("image", fileValue (file (ctl w))); ("algorithm", FVString "Shift&Rescale")] ++
        (if isNumeric sf then [("scalingFactor", stringValue sf)] else []) ++
        (if ok then [("shiftingValue", stringValue sv)] else []))] /\
  alerts w' = alerts w ++
    (if isNumeric sf then (if isNumeric sv then [] else ["Insert a number for the shifting value!"])
     else ["Insert a number for the scaling factor!"]) /\
  prompts w' = (if isNumeric sf then rest else sv :: rest).
Proof.
  intros Hal Hpr. destruct w as [d [fd al f f1 url] als pr rq dl ts]; cbn in Hal, Hpr; subst al pr.
  category_hyp Mixed.
  destruct (isNumeric sf) eqn:Ef; [destruct (isNumeric sv) eqn:Ev|]; run_click Ha.
Qed.

(** C6: "Negative" and "Salt&Pepper noise" ask nothing: the request goes
    to the mixed endpoint with [image] and [algorithm] only. *)
Theorem click_mixed_no_parameter (w : World) a :
  a = "Negative" \/ a = "Salt&Pepper noise" -> algorithmSelected (ctl w) = Some a ->
  let w' := st_exec processImageClick w in
  requests w' = requests w ++
    [mkRequest (Some url_mixed) "POST"
       (formData (ctl w) ++ [("image", fileValue (file (ctl w))); ("algorithm", FVString a)])] /\
  alerts w' = alerts w /\ prompts w' = prompts w.
Proof.
  intros Hk Hal. destruct w as [d [fd al f f1 url] als pr rq dl ts]; cbn in Hal; subst al.
  destruct Hk as [->| ->]; category_hyp Mixed; run_click Ha.
Qed.

(** C7: a convolution asks nothing and is sent to the convolution
    endpoint with [image] and [algorithm] only (spec, section 8: the
    "Convolution - Sobel X" example). *)
Theorem click_convolution (w : World) a :
  a ∈ categoryList Convolution -> algorithmSelected (ctl w) = Some a ->
  let w' := st_exec processImageClick w in
  requests w' = requests w ++
    [mkRequest (Some url_convolution) "POST"
       (formData (ctl w) ++ [("image", fileValue (file (ctl w))); ("algorithm", FVString a)])] /\
  alerts w' = alerts w /\ prompts w' = prompts w.
Proof.
  intros Ha Hal. destruct w as [d [fd al f f1 url] als pr rq dl ts]; cbn in Hal; subst al.
  run_click Ha.
Qed.

(** C8: an arithmetic operation sends [secondImage] to the arithmetic
    endpoint without checking that a second image was chosen: with no
    second file the field is the string "undefined". *)
Theorem click_arithmetic (w : World) a :
  a ∈ categoryList Arithmetic -> algorithmSelected (ctl w) = Some a ->
  let w' := st_exec processImageClick w in
  requests w' = requests w ++
    [mkRequest (Some url_arithmetic) "POST"
       (formData (ctl w) ++ [("image", fileValue (file (ctl w))); ("algorithm", FVString a);
                             ("secondImage", fileValue (file1 (ctl w)))])] /\
  alerts w' = alerts w /\ prompts w' = prompts w.
Proof.
  intros Ha Hal. destruct w as [d [fd al f f1 url] als pr rq dl ts]; cbn in Hal; subst al.
  run_click Ha.
Qed.

(** C9: a bitwise operation is sent to the bitwise endpoint, with
    [secondImage] for every operation but "Bitwise Not". *)
Theorem click_bitwise (w : World) a :
  a ∈ categoryList Bitwise -> algorithmSelected (ctl w) = Some a ->
  let w' := st_exec processImageClick w in
  requests w' = requests w ++
    [mkRequest (Some url_bitwise) "POST"
       (formData (ctl w) ++ [("image", fileValue (file (ctl w))); ("algorithm", FVString a)] ++
        (if bool_decide (a = "Bitwise Not") then [] else [("secondImage", fileValue (file1 (ctl w)))]))] /\
  alerts w' = alerts w /\ prompts w' = prompts w.
Proof.
  intros Ha Hal. destruct w as [d [fd al f f1 url] als pr rq dl ts]; cbn in Hal; subst al.
  destruct (decide (a = "Bitwise Not")) as [->|Hn].
  - run_click Ha.
  - rewrite (bool_decide_eq_false_2 _ Hn).
    assert (Hs : bool_decide (Some a = Some "Bitwise Not") = false)
      by (apply bool_decide_eq_false_2; congruence).
    run_click Ha.
Qed.

(** C10: a transformation asks for one parameter: a numeric answer is
    sent as [param] to the transformations endpoint; any other answer
    shows the alert and the request is still sent, without [param], to
    the previous URL. *)
Theorem click_transformation (w : World) a ans rest :
  a ∈ categoryList Transformation -> algorithmSelected (ctl w) = Some a ->
  prompts w = ans :: rest ->
  let w' := st_exec processImageClick w in
  requests w' = requests w ++
    [mkRequest (if isNumeric ans then Some url_transformations else urlApiCall (ctl w)) "POST"
       (formData (ctl w) ++ [("image", fileValue (file (ctl w))); ("algorithm", FVString a)] ++
        (if isNumeric ans then [("param", stringValue ans)] else []))] /\
  alerts w' = alerts w ++ (if isNumeric ans then [] else ["Insert a number!"]) /\
  prompts w' = rest.
Proof.
  intros Ha Hal Hpr. destruct w as [d [fd al f f1 url] als pr rq dl ts]; cbn in Hal, Hpr; subst al pr.
  destruct (isNumeric ans) eqn:En; run_click Ha.
Qed.

(** C11: before the first [change] event [algorithmSelected] is
    [undefined]: no [process*] function runs, and the request carries
    [algorithm] = "undefined" and goes to [urlApiCall] as it is. *)
Theorem click_without_selection (w : World) :
  algorithmSelected (ctl w) = None ->
  let w' := st_exec processImageClick w in
  requests w' = requests w ++
    [mkRequest (urlApiCall (ctl w)) "POST"
       (formData (ctl w) ++ [("image", fileValue (file (ctl w))); ("algorithm", FVString "undefined")])] /\
  alerts w' = alerts w /\ prompts w' = prompts w.
Proof.
  intros Hal. destruct w as [d [fd al f f1 url] als pr rq dl ts]; cbn in Hal; subst al.
  assert (Ha : "Negative" ∈ categoryList Mixed) by (apply (bool_decide_unpack _); reflexivity).
  run_click Ha.
Qed.

(** The whole effect of one change event of the select, with the test of
    line 148 read as the rule it implements. *)
Lemma algorithmSelectionChange_effect (w : World) value :
  st_exec (algorithmSelectionChange value) w =
  let show := bool_decide ((value ∈ arithmeticOperations \/ value ∈ bitOperations) /\
                           value <> "Bitwise Not") in
  mkWorld (set_secondImageDiv_display (if show then "contents" else "none") (dom w))
    (set_algorithmSelected (Some value) (ctl w))
    (alerts w ++ (if show then ["Upload a second image to use this algorithm!"] else []))
    (prompts w) (requests w) (downloads w) (tasks w).
Proof.
  destruct w as [d c als pr rq dl ts].
  assert (Hn : "Bitwise Not" ∉ arithmeticOperations) by (apply (bool_decide_unpack _); reflexivity).
  destruct (inList arithmeticOperations value) eqn:E1; destruct (inList bitOperations value) eqn:E2;
  pose proof (proj1 (inList_spec _ _) E1) as H1 || pose proof (inList_false_inv _ _ E1) as H1;
  pose proof (proj1 (inList_spec _ _) E2) as H2 || pose proof (inList_false_inv _ _ E2) as H2;
  unfold algorithmSelectionChange, st_exec, st_bind, get_ctl, modify_ctl, modify_dom, alert, st_modify, inListOpt;
  cbn [ctl dom alerts prompts requests downloads tasks algorithmSelected set_algorithmSelected snd orb andb];
  rewrite ?E1, ?E2; cbn [orb andb];
  destruct (decide (value = "Bitwise Not")) as [->|Hv]; eval_closed_decisions;
  repeat case_bool_decide; cbn [orb andb negb]; rewrite ?app_nil_r; try reflexivity; try tauto; try set_solver.
Qed.

(** C12: the change handler of the select stores the chosen value and
    shows [#second-image-div] (with the alert) exactly when the algorithm
    is an arithmetic or a bitwise operation other than "Bitwise Not";
    otherwise it hides it.  So the unparenthesised [a || b && c] of line
    148 has the meaning of the rule "(arithmetic or bitwise) and not
    Bitwise Not", because the lists are disjoint. *)
Theorem algorithmSelection_second_image (w : World) value :
  let w' := st_exec (algorithmSelectionChange value) w in
  let show := bool_decide ((value ∈ arithmeticOperations \/ value ∈ bitOperations) /\
                           value <> "Bitwise Not") in
  algorithmSelected (ctl w') = Some value /\
  secondImageDiv_display (dom w') = (if show then "contents" else "none") /\
  alerts w' = alerts w ++ (if show then ["Upload a second image to use this algorithm!"] else []) /\
  requests w' = requests w /\ tasks w' = tasks w.
Proof.
  cbv zeta. rewrite algorithmSelectionChange_effect. cbv zeta.
  destruct w as [[] [] ? ? ? ? ?]. repeat split.
Qed.

(** C13: choosing a first file assigns it to [file] before its type is
    checked.  An accepted type schedules the [FileReader] load of its
    data URL; a rejected one shows the alert and schedules nothing, but
    [file] still holds the rejected file, although the preview keeps the
    previous image (spec, section 4: "leaves prior state untouched"). *)
Theorem uploadFirstImage_assigns_before_check (w : World) f others :
  let w' := st_exec (uploadFirstImageChange (f :: others)) w in
  file (ctl w') = Some f /\ dom w' = dom w /\
  tasks w' = tasks w ++ (if matchImage (file_type f) then [ReaderLoad FirstImage (readAsDataURL f)] else []) /\
  alerts w' = alerts w ++
    (if matchImage (file_type f) then [] else ["Invalid file format. Please select an image file."]).
Proof.
  destruct w as [d c als pr rq dl ts].
  unfold uploadFirstImageChange, st_exec, st_bind, modify_ctl, schedule, alert, st_modify.
  destruct (matchImage (file_type f)); cbn; rewrite ?app_nil_r; auto.
Qed.

(** C14: the [success] callback shows the response as a base64 JPEG data
    URL, shows the save button (the response is not checked) and starts a
    fresh [formData]; saving afterwards downloads exactly that data URL
    under "resultImage.jpg". *)
Theorem ajaxSuccess_shows_result (w : World) response :
  let w' := st_exec (ajaxSuccess response) w in
  resultImage_src (dom w') = Some ("data:image/jpeg;base64," ++ response)%string /\
  saveButton_shown (dom w') = true /\
  formData (ctl w') = FormData_new /\
  saveImage (dom w') = Download ("data:image/jpeg;base64," ++ response)%string "resultImage.jpg" /\
  requests w' = requests w /\ alerts w' = alerts w.
Proof.
  destruct w as [d c als pr rq dl ts].
  unfold ajaxSuccess, st_exec, st_bind, modify_ctl, modify_dom, st_modify. cbn.
  pose proof (buttonsRules_srcs (set_resultImage_src (Some ("data:image/jpeg;base64," ++ response)%string) d))
    as (_ & _ & Hr & _).
  cbn in Hr. unfold saveImage. rewrite Hr.
  unfold buttonsRules. repeat case_bool_decide; cbn in *; try discriminate; try congruence; repeat split.
Qed.

(** C15: the [error] callback shows "Error: " (the [xhr] argument of
    [alert] is ignored) and starts a fresh [formData]; the page is not
    changed. *)
Theorem ajaxError_resets (w : World) :
  let w' := st_exec ajaxError w in
  alerts w' = alerts w ++ ["Error: "] /\ formData (ctl w') = FormData_new /\
  dom w' = dom w /\ requests w' = requests w.
Proof. destruct w. repeat split. Qed.

End ClickProperties.

(** ** Concrete runs, with jQuery's [$.isNumeric] *)

Definition sampleDom : Dom :=
  mkDom (Some "data:image/png;base64,AAAA") (Some "") (Some "") false true false "none" [].
Definition catFile : File := mkFile "cat.png" "image/png" "abc".
Definition dogFile : File := mkFile "dog.png" "image/png" "xyz".
Definition sampleWorld (alg : option string) (answers : list (option string)) (url : option string) : World :=
  mkWorld sampleDom (mkCtl [] alg (Some catFile) None url) [] answers [] [] [].

(** The answer "abc" to "Insert scaling factor" after a convolution was
    processed: the request goes to the convolution endpoint. *)
Lemma click_one_parameter_witness :
  requests (st_exec processImageClick (sampleWorld (Some "Rescaling") [Some "abc"] (Some url_convolution))) =
  [mkRequest (Some url_convolution) "POST" [("image", FVFile catFile); ("algorithm", FVString "Rescaling")]].
Proof.
  destruct (click_one_parameter (sampleWorld (Some "Rescaling") [Some "abc"] (Some url_convolution))
              "Rescaling" "scalingFactor" "Insert a number for the scaling factor!" (Some "abc") []
              (or_introl eq_refl) eq_refl eq_refl) as [H _].
  rewrite H. vm_compute. reflexivity.
Defined.

Lemma click_shift_rescale_witness :
  requests (st_exec processImageClick (sampleWorld (Some "Shift&Rescale") [Some "2"; Some "x"] None)) =
  [mkRequest None "POST" [("image", FVFile catFile); ("algorithm", FVString "Shift&Rescale");
                          ("scalingFactor", FVString "2")]].
Proof.
  destruct (click_shift_rescale (sampleWorld (Some "Shift&Rescale") [Some "2"; Some "x"] None)
              (Some "2") (Some "x") [] eq_refl eq_refl) as [H _].
  rewrite H. vm_compute. reflexivity.
Defined.

Lemma click_mixed_no_parameter_witness :
  requests (st_exec processImageClick (sampleWorld (Some "Negative") [] None)) =
  [mkRequest (Some url_mixed) "POST" [("image", FVFile catFile); ("algorithm", FVString "Negative")]].
Proof.
  destruct (click_mixed_no_parameter (sampleWorld (Some "Negative") [] None) "Negative"
              (or_introl eq_refl) eq_refl) as [H _].
  rewrite H. reflexivity.
Defined.

Lemma click_convolution_witness :
  requests (st_exec processImageClick (sampleWorld (Some "Convolution - Sobel X") [] None)) =
  [mkRequest (Some url_convolution) "POST"
     [("image", FVFile catFile); ("algorithm", FVString "Convolution - Sobel X")]].
Proof.
  destruct (click_convolution (sampleWorld (Some "Convolution - Sobel X") [] None) "Convolution - Sobel X"
              ltac:(apply (bool_decide_unpack _); reflexivity) eq_refl) as [H _].
  rewrite H. reflexivity.
Defined.

Lemma click_arithmetic_witness :
  requests (st_exec processImageClick (sampleWorld (Some "Addition") [] None)) =
  [mkRequest (Some url_arithmetic) "POST"
     [("image", FVFile catFile); ("algorithm", FVString "Addition"); ("secondImage", FVString "undefined")]].
Proof.
  destruct (click_arithmetic (sampleWorld (Some "Addition") [] None) "Addition"
              ltac:(apply (bool_decide_unpack _); reflexivity) eq_refl) as [H _].
  rewrite H. reflexivity.
Defined.

Lemma click_bitwise_witness :
  requests (st_exec processImageClick (sampleWorld (Some "Bitwise Not") [] None)) =
  [mkRequest (Some url_bitwise) "POST" [("image", FVFile catFile); ("algorithm", FVString "Bitwise Not")]].
Proof.
  destruct (click_bitwise (sampleWorld (Some "Bitwise Not") [] None) "Bitwise Not"
              ltac:(apply (bool_decide_unpack _); reflexivity) eq_refl) as [H _].
  rewrite H. vm_compute. reflexivity.
Defined.

Lemma click_transformation_witness :
  requests (st_exec processImageClick (sampleWorld (Some "Power Law") [Some " 2.2 "] None)) =
  [mkRequest (Some url_transformations) "POST"
     [("image", FVFile catFile); ("algorithm", FVString "Power Law"); ("param", FVString " 2.2 ")]].
Proof.
  destruct (click_transformation (sampleWorld (Some "Power Law") [Some " 2.2 "] None) "Power Law"
              (Some " 2.2 ") [] ltac:(apply (bool_decide_unpack _); reflexivity) eq_refl eq_refl) as [H _].
  rewrite H. vm_compute. reflexivity.
Defined.

Lemma click_without_selection_witness :
  requests (st_exec processImageClick (sampleWorld None [] None)) =
  [mkRequest None "POST" [("image", FVFile catFile); ("algorithm", FVString "undefined")]].
Proof.
  destruct (click_without_selection (sampleWorld None [] None) eq_refl) as [H _].
  rewrite H. reflexivity.
Defined.

End Controller.
