(* ===== verification/EventLoop.v ===== *)
(** EventLoop: the browser's event loop around the handlers of
    [Controller], as a step relation on worlds.  A step is a user event
    on an enabled control (a change of the select, a file chosen in one
    of the two inputs, a click on the process or the save button) or the
    completion of any pending task: a [FileReader] load or the [success]
    or [error] callback of a request, in any order.  [reachable] is the
    reflexive-transitive closure from the page right after [ready].  The
    invariant [Inv] is proved by induction on [reachable]. *)

From S2P Require Import Prelude Catalog Browser Numeric Page Controller.

Module EventLoop.
Import Catalog Browser Numeric Page Controller.

(** The answers the user types into the prompts of one click. *)
Definition set_prompts (answers : list (option string)) (w : World) : World :=
  mkWorld (dom w) (ctl w) (alerts w) answers (requests w) (downloads w) (tasks w).

(** A task leaves the queue when its callback runs. *)
Definition remove_task (k : nat) (w : World) : World :=
  mkWorld (dom w) (ctl w) (alerts w) (prompts w) (requests w) (downloads w) (delete k (tasks w)).

Section Loop.
Context `{NT : NumericTest}.

Inductive step : World -> World -> Prop :=
  | step_change w i o :
      algorithmSelect (dom w) !! i = Some o ->
      step w (st_exec (algorithmSelectionChange (opt_value o)) w)
  | step_first w files : step w (st_exec (uploadFirstImageChange files) w)
  | step_second w files : step w (st_exec (uploadSecondImageChange files) w)
  | step_process w answers :
      processButton_disabled (dom w) = false ->
      step w (set_prompts [] (st_exec processImageClick (set_prompts answers w)))
  | step_save w :
      saveButton_disabled (dom w) = false -> saveButton_shown (dom w) = true ->
      step w (st_exec saveImageClick w)
  | step_reader w k slot url :
      tasks w !! k = Some (ReaderLoad slot url) ->
      step w (st_exec (readerOnload slot url) (remove_task k w))
  | step_success w k id response :
      tasks w !! k = Some (AjaxCall id) ->
      step w (st_exec (ajaxSuccess response) (remove_task k w))
  | step_error w k id :
      tasks w !! k = Some (AjaxCall id) ->
      step w (st_exec ajaxError (remove_task k w)).

(** The world right after [$(document).ready] on a page [d]. *)
Definition init (d : Dom) : World := mkWorld (ready d) initCtl [] [] [] [] [].

Definition reachable (d : Dom) (w : World) : Prop := rtc step (init d) w.

End Loop.

(** ** What each handler changes *)

Lemma exec_algorithmSelectionChange `{NumericTest} w v :
  exists disp als,
    st_exec (algorithmSelectionChange v) w =
    mkWorld (set_secondImageDiv_display disp (dom w)) (set_algorithmSelected (Some v) (ctl w))
      als (prompts w) (requests w) (downloads w) (tasks w).
Proof.
  destruct w. unfold algorithmSelectionChange, st_exec, st_bind, modify_ctl, modify_dom, get_ctl,
    alert, st_modify. cbn. case_match; eauto.
Qed.

Lemma exec_uploadFirstImageChange `{NumericTest} w f others :
  exists als,
    st_exec (uploadFirstImageChange (f :: others)) w =
    mkWorld (dom w) (set_file (Some f) (ctl w)) als (prompts w) (requests w) (downloads w)
      (tasks w ++ if matchImage (file_type f) then [ReaderLoad FirstImage (readAsDataURL f)] else []).
Proof.
  destruct w. unfold uploadFirstImageChange, st_exec, st_bind, modify_ctl, schedule, alert, st_modify.
  cbn. case_match; [eauto | rewrite app_nil_r; eauto].
Qed.

Lemma exec_uploadSecondImageChange `{NumericTest} w f others :
  exists als,
    st_exec (uploadSecondImageChange (f :: others)) w =
    mkWorld (dom w) (set_file1 (Some f) (ctl w)) als (prompts w) (requests w) (downloads w)
      (tasks w ++ if matchImage (file_type f) then [ReaderLoad SecondImage (readAsDataURL f)] else []).
Proof.
  destruct w. unfold uploadSecondImageChange, st_exec, st_bind, modify_ctl, schedule, alert, st_modify.
  cbn. case_match; [eauto | rewrite app_nil_r; eauto].
Qed.

(** ** The invariant of the reachable worlds *)

(** On a page whose preview starts without an image:
    the process button is disabled exactly when the preview has the empty
    source; the save button stays disabled and nothing is downloaded; a
    preview (or a pending load of one) implies a chosen first file; every
    request sent carries a file under [image]; and a non-empty [formData]
    implies a request still in flight. *)
Definition Inv (w : World) : Prop :=
  processButton_disabled (dom w) = bool_decide (originalImage_src (dom w) = Some "") /\
  saveButton_disabled (dom w) = true /\
  downloads w = [] /\
  (originalImage_src (dom w) <> Some "" -> is_Some (file (ctl w))) /\
  (forall url, ReaderLoad FirstImage url ∈ tasks w -> url <> "" /\ is_Some (file (ctl w))) /\
  Forall (fun r => exists f, ("image", FVFile f) ∈ req_data r) (requests w) /\
  (formData (ctl w) <> [] -> exists id, AjaxCall id ∈ tasks w).

(** Split [Inv] into its seven clauses without introducing anything. *)
Ltac inv_split := refine (conj _ (conj _ (conj _ (conj _ (conj _ (conj _ _)))))).

Lemma Inv_init d : originalImage_src d = Some "" -> Inv (init d).
Proof.
  intros Hd. unfold init, ready, Inv, buttonsRules.
  set (d1 := set_algorithmSelect _ d).
  assert (Hd1 : originalImage_src d1 = Some "") by exact Hd.
  rewrite (bool_decide_eq_true_2 _ Hd1).
  destruct (bool_decide (resultImage_src _ = Some "")); cbn [negb dom ctl downloads tasks requests
    initCtl formData originalImage_src processButton_disabled saveButton_disabled
    set_saveButton_shown set_saveButton_disabled set_processButton_disabled];
  rewrite Hd1; (repeat split; try done); intros; by apply elem_of_nil in H.
Qed.

(** A task other than [t] survives the removal of [t]. *)
Lemma tasks_after_remove w k t :
  tasks w !! k = Some t ->
  (forall u, u ∈ delete k (tasks w) -> u ∈ tasks w) /\
  (forall u, u ∈ tasks w -> u <> t -> u ∈ delete k (tasks w)).
Proof.
  intros Hk. split; intros u Hu; [exact (list_elem_of_delete_inv u k _ Hu)|].
  intros Hne. exact (elem_of_delete_other (tasks w) k u t Hk Hu Hne).
Qed.

Lemma Inv_change `{NumericTest} w v : Inv w -> Inv (st_exec (algorithmSelectionChange v) w).
Proof.
  intros HI. destruct (exec_algorithmSelectionChange w v) as (disp & als & ->).
  destruct w as [[] [] ? ? ? ? ?]. exact HI.
Qed.

Lemma Inv_first `{NumericTest} w files : Inv w -> Inv (st_exec (uploadFirstImageChange files) w).
Proof.
  intros HI. destruct files as [|f others]; [exact HI|].
  destruct HI as (Hp & Hs & Hdl & Hf & Hr & Hq & Hfd).
  destruct (exec_uploadFirstImageChange w f others) as (als & ->).
  unfold Inv; cbn [dom ctl downloads tasks requests file formData set_file]. inv_split; try done.
  - intros url Hu. apply elem_of_app in Hu as [Hu|Hu].
    + split; [apply (Hr url Hu) | done].
    + destruct (matchImage (file_type f)); [|by apply elem_of_nil in Hu].
      apply list_elem_of_singleton in Hu. injection Hu as ->.
      split; [apply readAsDataURL_nonempty | done].
  - intros Hne. destruct (Hfd Hne) as [id Hid]. exists id. apply elem_of_app. by left.
Qed.

Lemma Inv_second `{NumericTest} w files : Inv w -> Inv (st_exec (uploadSecondImageChange files) w).
Proof.
  intros HI. destruct files as [|f others]; [exact HI|].
  destruct HI as (Hp & Hs & Hdl & Hf & Hr & Hq & Hfd).
  destruct (exec_uploadSecondImageChange w f others) as (als & ->).
  unfold Inv; cbn [dom ctl downloads tasks requests file formData set_file1]. inv_split; try done.
  - intros url Hu. apply elem_of_app in Hu as [Hu|Hu]; [by apply Hr|].
    destruct (matchImage (file_type f)); [|by apply elem_of_nil in Hu].
    apply list_elem_of_singleton in Hu. discriminate.
  - intros Hne. destruct (Hfd Hne) as [id Hid]. exists id. apply elem_of_app. by left.
Qed.

Lemma Inv_process `{NumericTest} w answers :
  processButton_disabled (dom w) = false -> Inv w ->
  Inv (set_prompts [] (st_exec processImageClick (set_prompts answers w))).
Proof.
  intros Hen (Hp & Hs & Hdl & Hf & Hr & Hq & Hfd).
  destruct (processImageClick_effect (set_prompts answers w))
    as (url & extra & H1 & H2 & H3 & H4 & H5).
  unfold Inv, set_prompts in *; cbn [dom ctl downloads tasks requests] in *.
  rewrite H1, H2, H3, H4, H5.
  assert (Hsrc : originalImage_src (dom w) <> Some "")
    by (intros E; rewrite Hp, (bool_decide_eq_true_2 _ E) in Hen; discriminate).
  destruct (Hf Hsrc) as [f Hfile].
  inv_split; try done.
  - intros u Hu. apply elem_of_app in Hu as [Hu|Hu]; [by apply Hr|].
    apply list_elem_of_singleton in Hu. discriminate.
  - apply Forall_app; split; [exact Hq|]. constructor; [|constructor].
    exists f. cbn [req_data]. rewrite Hfile. apply elem_of_app. right. apply elem_of_cons. by left.
  - intros _. eexists. apply elem_of_app. right. by apply list_elem_of_singleton.
Qed.

Lemma Inv_reader `{NumericTest} w k slot url :
  tasks w !! k = Some (ReaderLoad slot url) -> Inv w ->
  Inv (st_exec (readerOnload slot url) (remove_task k w)).
Proof.
  intros Hk (Hp & Hs & Hdl & Hf & Hr & Hq & Hfd).
  destruct (tasks_after_remove w k _ Hk) as (Hdel1 & Hdel2).
  assert (Hfd' : formData (ctl w) <> [] -> exists id, AjaxCall id ∈ delete k (tasks w)).
  { intros Hne. destruct (Hfd Hne) as [id Hid]. exists id. apply Hdel2; [exact Hid | discriminate]. }
  assert (Hr' : forall u, ReaderLoad FirstImage u ∈ delete k (tasks w) -> u <> "" /\ is_Some (file (ctl w)))
    by (intros u Hu; apply Hr, Hdel1, Hu).
  destruct slot; unfold Inv, remove_task, readerOnload, st_exec, st_bind, modify_dom, st_modify;
    cbn [dom ctl downloads tasks requests snd].
  - pose proof (Hr url (list_elem_of_lookup_2 _ _ _ Hk)) as [Hurl Hfile].
    pose proof (buttonsRules_srcs (set_originalImage_src (Some url) (dom w))) as (Hsrc & _).
    inv_split; try done.
    + rewrite buttonsRules_process, Hsrc. reflexivity.
    + apply buttonsRules_save_disabled. exact Hs.
  - inv_split; try done.
Qed.

(** Both callbacks of a request reset [formData] and keep the file. *)
Lemma Inv_callback w k id (d' : Dom) als :
  tasks w !! k = Some (AjaxCall id) -> Inv w ->
  processButton_disabled d' = bool_decide (originalImage_src d' = Some "") ->
  saveButton_disabled d' = true ->
  originalImage_src d' = originalImage_src (dom w) ->
  Inv (mkWorld d' (set_formData FormData_new (ctl w)) als (prompts w) (requests w) (downloads w)
         (delete k (tasks w))).
Proof.
  intros Hk (Hp & Hs & Hdl & Hf & Hr & Hq & Hfd) Hp' Hs' Hsrc.
  destruct (tasks_after_remove w k _ Hk) as (Hdel1 & _).
  unfold Inv; cbn [dom ctl downloads tasks requests formData file set_formData].
  inv_split; try done.
  - rewrite Hsrc. exact Hf.
  - intros u Hu. apply Hr, Hdel1, Hu.
Qed.

Lemma step_Inv `{NumericTest} w w' : step w w' -> Inv w -> Inv w'.
Proof.
  intros Hst HI. destruct Hst as [w i o _|w files|w files|w answers Hen|w Hsd _|w k slot url Hk
                                 |w k id response Hk|w k id Hk].
  - apply Inv_change, HI.
  - apply Inv_first, HI.
  - apply Inv_second, HI.
  - apply Inv_process; assumption.
  - destruct HI as (_ & Hs & _). congruence.
  - apply Inv_reader; assumption.
  - pose proof (buttonsRules_srcs (set_resultImage_src
      (Some ("data:image/jpeg;base64," ++ response)%string) (dom w))) as (Hsrc & _).
    unfold st_exec, ajaxSuccess, st_bind, modify_dom, modify_ctl, st_modify, remove_task;
      cbn [dom ctl alerts prompts requests downloads tasks snd].
    apply (Inv_callback w k id); [exact Hk | exact HI | | | exact Hsrc].
    + rewrite buttonsRules_process, Hsrc. reflexivity.
    + apply buttonsRules_save_disabled. apply HI.
  - unfold st_exec, ajaxError, st_bind, alert, modify_ctl, st_modify, remove_task;
      cbn [dom ctl alerts prompts requests downloads tasks snd].
    apply (Inv_callback w k id); [exact Hk | exact HI | apply HI | apply HI | reflexivity].
Qed.

Lemma reachable_Inv `{NumericTest} d w :
  originalImage_src d = Some "" -> reachable d w -> Inv w.
Proof.
  intros Hd Hr.
  apply (rtc_ind_r (R := step) Inv (init d)); [by apply Inv_init | | exact Hr].
  intros y z _ Hyz Hy. eapply step_Inv; eassumption.
Qed.

Section Properties.
Context `{NT : NumericTest}.

(** C17: on a page whose preview starts empty, every request ever sent
    carries a file under [image]: a click is only possible once a first
    image has been previewed, and then [file] holds a file (spec,
    section 8: "submitting with no primary image never issues a
    network request"). *)
Theorem reachable_requests_carry_image d w :
  originalImage_src d = Some "" -> reachable d w ->
  Forall (fun r => exists f, ("image", FVFile f) ∈ req_data r) (requests w).
Proof. intros Hd Hr. apply (reachable_Inv d w Hd Hr). Qed.

(** C18: on a page whose preview starts empty, [ready] disables the save
    button and nothing ever enables it again (the enabling line 90 of
    [buttonsRules] is commented out): in every reachable state the save
    button is disabled and no download has happened. *)
Theorem reachable_save_disabled d w :
  originalImage_src d = Some "" -> reachable d w ->
  saveButton_disabled (dom w) = true /\ downloads w = [].
Proof. intros Hd Hr. destruct (reachable_Inv d w Hd Hr) as (_ & Hs & Hdl & _). done. Qed.

(** C19: in every reachable state the process button is disabled exactly
    when the first preview has the empty source. *)
Theorem reachable_process_button d w :
  originalImage_src d = Some "" -> reachable d w ->
  processButton_disabled (dom w) = bool_decide (originalImage_src (dom w) = Some "").
Proof. intros Hd Hr. apply (reachable_Inv d w Hd Hr). Qed.

(** C20: the shared [formData] is emptied by every callback, so in every
    reachable state it is non-empty only while some request is still in
    flight. *)
Theorem reachable_formData_in_flight d w :
  originalImage_src d = Some "" -> reachable d w ->
  formData (ctl w) <> [] -> exists id, AjaxCall id ∈ tasks w.
Proof. intros Hd Hr. apply (reachable_Inv d w Hd Hr). Qed.

End Properties.

(** ** Concrete runs from a blank page, with jQuery's [$.isNumeric] *)

Definition blankPage : Dom := mkDom (Some "") (Some "") (Some "") false false false "none" [].
Definition sobelX : SelectOption := mkOption "Convolution - Sobel X" "卷积 - 索贝尔 X".

(** One step of a concrete run: the side conditions compute. *)
Ltac run_step s := eapply rtc_l; [s; vm_compute; reflexivity |].

(** The page after the cat picture was chosen and previewed. *)
Definition catPreviewed : World :=
  st_exec (readerOnload FirstImage (readAsDataURL catFile))
    (remove_task 0 (st_exec (uploadFirstImageChange [catFile]) (init blankPage))).

Lemma catPreviewed_reachable : reachable blankPage catPreviewed.
Proof.
  unfold reachable, catPreviewed.
  run_step ltac:(apply (step_first _ [catFile])).
  run_step ltac:(apply (step_reader _ 0 FirstImage (readAsDataURL catFile))).
  apply rtc_refl.
Qed.

(** The same page after "Convolution - Sobel X" was selected and the
    process button clicked once. *)
Definition sobelSent : World :=
  set_prompts [] (st_exec processImageClick (set_prompts []
    (st_exec (algorithmSelectionChange "Convolution - Sobel X") catPreviewed))).

Lemma sobelSent_reachable : reachable blankPage sobelSent.
Proof.
  unfold reachable. eapply rtc_r; [eapply rtc_r; [apply catPreviewed_reachable|]|].
  - apply (step_change _ 21 sobelX). vm_compute. reflexivity.
  - apply (step_process _ []). vm_compute. reflexivity.
Qed.

Lemma reachable_requests_carry_image_witness :
  Forall (fun r => exists f, ("image", FVFile f) ∈ req_data r) (requests sobelSent).
Proof.
  apply (reachable_requests_carry_image blankPage sobelSent); [reflexivity | exact sobelSent_reachable].
Defined.

Lemma reachable_save_disabled_witness :
  saveButton_disabled (dom catPreviewed) = true /\ downloads catPreviewed = [].
Proof. apply (reachable_save_disabled blankPage catPreviewed); [reflexivity | apply catPreviewed_reachable]. Defined.

Lemma reachable_process_button_witness :
  processButton_disabled (dom catPreviewed) = bool_decide (originalImage_src (dom catPreviewed) = Some "").
Proof. apply (reachable_process_button blankPage catPreviewed); [reflexivity | apply catPreviewed_reachable]. Defined.

Lemma reachable_formData_in_flight_witness :
  exists id, AjaxCall id ∈ tasks sobelSent.
Proof.
  apply (reachable_formData_in_flight blankPage sobelSent);
    [reflexivity | exact sobelSent_reachable | vm_compute; discriminate].
Defined.

(** C21: nothing guards against a second click while the first request
    is in flight: the second request is built on the same [formData],
    which the first callback has not emptied yet, so it carries [image]
    and [algorithm] twice. *)
Theorem reentrant_submit_duplicates :
  exists w, reachable blankPage w /\
    map req_data (requests w) =
      [[("image", FVFile catFile); ("algorithm", FVString "Convolution - Sobel X")];
       [("image", FVFile catFile); ("algorithm", FVString "Convolution - Sobel X");
        ("image", FVFile catFile); ("algorithm", FVString "Convolution - Sobel X")]].
Proof.
  eexists. split.
  - unfold reachable.
    run_step ltac:(apply (step_first _ [catFile])).
    run_step ltac:(apply (step_reader _ 0 FirstImage (readAsDataURL catFile))).
    run_step ltac:(apply (step_change _ 21 sobelX)).
    run_step ltac:(apply (step_process _ [])).
    run_step ltac:(apply (step_process _ [])).
    apply rtc_refl.
  - vm_compute. reflexivity.
Qed.



(** The same page after the process button was clicked a second time,
    the first request still in flight. *)
Definition sobelTwice : World := set_prompts [] (st_exec processImageClick (set_prompts [] sobelSent)).

(** C33: the answers to two requests in flight may arrive in either
    order, and each [success] callback writes [#resultImage] without
    checking which request it answers: when the request sent second
    (id 1) is answered first and the one sent first (id 0) last, the
    page ends up showing the older answer [r0], whatever the two answers
    are, with nothing left pending. *)
Theorem stale_response_shown (r0 r1 : string) :
  reachable blankPage sobelTwice /\ tasks sobelTwice = [AjaxCall 0; AjaxCall 1] /\
  (let w1 := st_exec (ajaxSuccess r1) (remove_task 1 sobelTwice) in
   let w2 := st_exec (ajaxSuccess r0) (remove_task 0 w1) in
   step sobelTwice w1 /\ step w1 w2 /\ tasks w2 = [] /\
   resultImage_src (dom w2) = Some ("data:image/jpeg;base64," ++ r0)%string).
Proof.
  split; [|split; [vm_compute; reflexivity|]].
  - eapply rtc_r; [exact sobelSent_reachable|]. apply (step_process _ []). vm_compute. reflexivity.
  - cbv zeta. split; [by apply (step_success _ 1 1)|]. split; [by apply (step_success _ 0 0)|].
    split; vm_compute; reflexivity.
Qed.

End EventLoop.
