(* ===== verification/Registry.v ===== *)
(** Registry: the abstract contract of the submission, as the spec states
    it (sections 4, 6 and 9): a registry that maps each algorithm name to
    its category, the numeric parameters it needs (in prompt order), its
    endpoint and whether it needs a second image; and the request a
    submission should send: [image], [algorithm], one field per
    parameter, then [secondImage] when needed.  The refinement theorem
    shows that the click handler of [Controller], started on a fresh
    payload with valid answers, sends exactly that request. *)

From S2P Require Import Prelude Catalog Browser Numeric Page Controller.

Module Registry.
Import Catalog Browser Numeric Page Controller.

Record Entry := mkEntry {
  entry_category : Category;
  entry_params : list string;
  entry_endpoint : string;
  entry_second : bool
}.

Definition paramsOf (k : Category) (a : string) : list string :=
  match k with
  | Mixed =>
      if decide (a = "Rescaling") then ["scalingFactor"]
      else if decide (a = "Shift&Rescale") then ["scalingFactor"; "shiftingValue"]
      else if decide (a = "Bit Plane Slicing") then ["nBit"] else []
  | Transformation => ["param"]
  | _ => []
  end.

Definition endpointOf (k : Category) : string :=
  match k with
  | Mixed => url_mixed
  | Arithmetic => url_arithmetic
  | Bitwise => url_bitwise
  | Convolution => url_convolution
  | Transformation => url_transformations
  end.

Definition secondOf (k : Category) (a : string) : bool :=
  match k with
  | Arithmetic => true
  | Bitwise => a !== "Bitwise Not"
  | _ => false
  end.

Definition entryOf (k : Category) (a : string) : Entry :=
  mkEntry k (paramsOf k a) (endpointOf k) (secondOf k a).

Definition registryEntries : list (string * Entry) :=
  ((fun a => (a, entryOf Mixed a)) <$> mixedAlgorithms) ++
  ((fun a => (a, entryOf Arithmetic a)) <$> arithmeticOperations) ++
  ((fun a => (a, entryOf Bitwise a)) <$> bitOperations) ++
  ((fun a => (a, entryOf Convolution a)) <$> convolutions) ++
  ((fun a => (a, entryOf Transformation a)) <$> transformations).

Definition registry : gmap string Entry := list_to_map registryEntries.

(** The request the spec prescribes for algorithm [a] with entry [e], the
    primary file, the second file and the answers [vals]. *)
Definition specRequest (a : string) (e : Entry) (image : File) (second : option File)
    (vals : list string) : Request :=
  mkRequest (Some (entry_endpoint e)) "POST"
    ([("image", FVFile image); ("algorithm", FVString a)] ++
     zip_with (fun p v => (p, FVString v)) (entry_params e) vals ++
     (if entry_second e then [("secondImage", fileValue second)] else [])).

Lemma registry_lookup a e :
  registry !! a = Some e -> exists k, a ∈ categoryList k /\ e = entryOf k a.
Proof.
  intros H. apply elem_of_list_to_map_2 in H. unfold registryEntries in H.
  repeat rewrite elem_of_app in H.
  destruct H as [H|[H|[H|[H|H]]]]; apply list_elem_of_fmap_1 in H as (a' & Heq & Ha);
    injection Heq as -> ->;
    [exists Mixed | exists Arithmetic | exists Bitwise | exists Convolution | exists Transformation]; done.
Qed.

(** Compute the registry fields of a closed algorithm name. *)
Ltac eval_params :=
  repeat match goal with
  | |- context [paramsOf ?k ?a] =>
      let v := eval vm_compute in (paramsOf k a) in change (paramsOf k a) with v
  | H : context [paramsOf ?k ?a] |- _ =>
      let v := eval vm_compute in (paramsOf k a) in change (paramsOf k a) with v in H
  end;
  cbn [endpointOf secondOf] in *.

Section Refinement.
Context `{NT : NumericTest}.

(** C24: refinement of the registry contract.  On a fresh payload, with a
    first file chosen, an algorithm of the registry selected and one
    numeric answer per parameter it needs, a click sends exactly the
    request [specRequest] prescribes (endpoint, field names, values and
    their order), shows no alert and consumes exactly those answers. *)
Theorem click_refines_registry (w : World) a e f vals rest :
  registry !! a = Some e ->
  algorithmSelected (ctl w) = Some a -> formData (ctl w) = [] -> file (ctl w) = Some f ->
  List.length vals = List.length (entry_params e) ->
  Forall (fun v => isNumeric (Some v) = true) vals ->
  prompts w = (Some <$> vals) ++ rest ->
  let w' := st_exec processImageClick w in
  requests w' = requests w ++ [specRequest a e f (file1 (ctl w)) vals] /\
  alerts w' = alerts w /\ prompts w' = rest.
Proof.
  intros He Hal Hfd Hf Hlen Hnum Hpr.
  destruct (registry_lookup a e He) as (k & Ha & ->). clear He.
  destruct w as [d [fd al f0 f1 url] als pr rq dl ts]; cbn in Hal, Hfd, Hf, Hpr; subst al fd f0 pr.
  unfold specRequest, entryOf, fileValue. cbn [entry_params entry_endpoint entry_second] in *.
  destruct k.
  - (* the five mixed algorithms, one by one *)
    assert (Hm := Ha). cbn [categoryList] in Hm. unfold mixedAlgorithms in Hm.
    repeat (apply elem_of_cons in Hm as [->|Hm]); [| | | | | by apply elem_of_nil in Hm];
    eval_params;
    destruct vals as [|v1 [|v2 [|v3 vals]]]; try discriminate;
    repeat (apply Forall_cons in Hnum as [? Hnum]); cbv beta in *; run_click Ha.
  - destruct vals; [|discriminate]. cbn [endpointOf secondOf]. run_click Ha.
  - destruct vals; [|discriminate]. cbn [endpointOf].
    destruct (decide (a = "Bitwise Not")) as [->|Hn].
    + run_click Ha.
    + assert (Hs : bool_decide (Some a = Some "Bitwise Not") = false)
        by (apply bool_decide_eq_false_2; congruence).
      assert (Hs' : bool_decide (a = "Bitwise Not") = false) by (by apply bool_decide_eq_false_2).
      cbn [secondOf]. rewrite Hs'. run_click Ha.
  - destruct vals; [|discriminate]. cbn [endpointOf secondOf]. run_click Ha.
  - destruct vals as [|v1 [|v2 vals]]; try discriminate. cbn [endpointOf secondOf].
    apply Forall_cons in Hnum as [? _]. cbv beta in *. run_click Ha.
Qed.

End Refinement.

(** Membership in another category's list, as a proposition. *)
Lemma elem_of_category k k' a : a ∈ categoryList k -> (a ∈ categoryList k' <-> k = k').
Proof.
  intros Ha. rewrite <- inList_spec, (inList_category k k' a Ha).
  split; [apply bool_decide_eq_true_1 | intros ->; by apply bool_decide_eq_true_2].
Qed.

(** The registry's second-image flag is the rule of line 148. *)
Lemma registry_second a e :
  registry !! a = Some e ->
  entry_second e = bool_decide ((a ∈ arithmeticOperations \/ a ∈ bitOperations) /\ a <> "Bitwise Not").
Proof.
  intros He. destruct (registry_lookup a e He) as (k & Ha & ->). clear He.
  pose proof (elem_of_category k Arithmetic a Ha) as HA.
  pose proof (elem_of_category k Bitwise a Ha) as HB.
  cbn [categoryList] in HA, HB. unfold entryOf. cbn [entry_second].
  assert (Hn : "Bitwise Not" ∉ arithmeticOperations) by (apply (bool_decide_unpack _); reflexivity).
  destruct k; cbn [secondOf]; symmetry.
  all: try (apply bool_decide_eq_false_2; intros [[H|H] _]; [apply HA in H | apply HB in H]; discriminate).
  - apply bool_decide_eq_true_2. split; [left; by apply HA | intros ->; contradiction].
  - destruct (decide (a = "Bitwise Not")) as [->|Hne].
    + rewrite (bool_decide_eq_true_2 ("Bitwise Not" = "Bitwise Not")) by done.
      apply bool_decide_eq_false_2. tauto.
    + rewrite (bool_decide_eq_false_2 (a = "Bitwise Not")) by done. cbn [negb].
      apply bool_decide_eq_true_2. split; [right; by apply HB | done].
Qed.

(** No parameter of the registry is called [secondImage]. *)
Lemma registry_params_no_second a e : registry !! a = Some e -> "secondImage" ∉ entry_params e.
Proof.
  intros He. destruct (registry_lookup a e He) as (k & _ & ->). cbn [entryOf entry_params].
  intros H. destruct k; cbn [paramsOf] in H; repeat case_decide;
    repeat (apply elem_of_cons in H as [H|H]; [discriminate|]); by apply elem_of_nil in H.
Qed.

Lemma zip_with_fields_names (ps vs : list string) p x :
  (p, x) ∈ zip_with (fun p v => (p, FVString v)) ps vs -> p ∈ ps.
Proof.
  revert vs. induction ps as [|q ps IH]; intros [|v vs] H; cbn in H; try by apply elem_of_nil in H.
  apply elem_of_cons in H as [[= -> _]|H]; apply elem_of_cons; [by left | right; eauto].
Qed.

(** The request of the contract carries [secondImage] exactly when the
    entry asks for it, and then with the second file. *)
Lemma specRequest_secondImage a e f f1 vals v :
  "secondImage" ∉ entry_params e ->
  ("secondImage", v) ∈ req_data (specRequest a e f f1 vals) <-> entry_second e = true /\ v = fileValue f1.
Proof.
  intros Hp. unfold specRequest. cbn [req_data]. rewrite !elem_of_app. split.
  - intros [H|[H|H]].
    + repeat (apply elem_of_cons in H as [H|H]; [discriminate|]). by apply elem_of_nil in H.
    + by apply zip_with_fields_names in H.
    + destruct (entry_second e); [|by apply elem_of_nil in H].
      apply list_elem_of_singleton in H. injection H as ->. done.
  - intros [He ->]. right; right. rewrite He. by apply list_elem_of_singleton.
Qed.

(** The keys of the registry are the names of the five lists. *)
Lemma registry_keys a : is_Some (registry !! a) <-> a ∈ allAlgorithms.
Proof.
  split.
  - intros [e He]. destruct (registry_lookup a e He) as (k & Ha & _).
    unfold allAlgorithms. rewrite !elem_of_app. destruct k; cbn [categoryList] in Ha; tauto.
  - revert a. apply Forall_forall. apply (bool_decide_unpack _). vm_compute. reflexivity.
Qed.

(** The options of the select right after start-up, on a page whose
    select starts empty. *)
Lemma ready_options d :
  algorithmSelect d = [] ->
  algorithmSelect (ready d) = map (fun a => mkOption a (default a (algorithmLabels !! a))) allAlgorithms.
Proof.
  intros Hd. unfold ready. rewrite (proj2 (proj2 (proj2 (proj2 (buttonsRules_srcs _))))).
  cbn [algorithmSelect set_algorithmSelect]. rewrite Hd, setup_then_translate. reflexivity.
Qed.

(** C1: the page the script builds offers the registry: right after
    [$(document).ready] (lines 261-263: [setupSelectInputField],
    [translateAlgorithmOptions], [buttonsRules]) on a page whose select
    starts empty, the values of the options, which [.val()] hands to the
    change handler and the click sends as [algorithm], are exactly the
    algorithms of the registry, each once, and every option is displayed
    with the label of its value. *)
Theorem ready_offers_registry (d : Dom) :
  algorithmSelect d = [] ->
  NoDup (map opt_value (algorithmSelect (ready d))) /\
  (forall a, a ∈ map opt_value (algorithmSelect (ready d)) <-> is_Some (registry !! a)) /\
  (forall o, o ∈ algorithmSelect (ready d) -> algorithmLabels !! opt_value o = Some (opt_text o)).
Proof.
  intros Hd. rewrite (ready_options d Hd), map_map. cbn [opt_value]. rewrite map_id.
  split; [exact allAlgorithms_NoDup|]. split; [intros a; by rewrite registry_keys|].
  intros o (a & -> & Ha)%list_elem_of_fmap_1. cbn [opt_value opt_text].
  pose proof (proj1 (Forall_forall _ _) labels_total a Ha) as [l Hl]. by rewrite Hl.
Qed.

Section Composition.
Context `{NT : NumericTest}.

(** C25: the two places of the script that decide the second image
    agree.  Choosing an algorithm of the registry in the select (line 148
    shows or hides [#second-image-div]) and then clicking the process
    button on a fresh payload with a first file and valid answers sends
    one request, which carries [secondImage] (lines 230 and 236-237), the
    second file, exactly when the change handler showed the second upload
    control, and no [secondImage] at all when it hid it. *)
Theorem select_then_click_second_image (w : World) a e f vals rest :
  registry !! a = Some e -> formData (ctl w) = [] -> file (ctl w) = Some f ->
  List.length vals = List.length (entry_params e) ->
  Forall (fun v => isNumeric (Some v) = true) vals ->
  prompts w = (Some <$> vals) ++ rest ->
  let w1 := st_exec (algorithmSelectionChange a) w in
  let w2 := st_exec processImageClick w1 in
  exists r, requests w2 = requests w ++ [r] /\
    ((secondImageDiv_display (dom w1) = "contents" /\ ("secondImage", fileValue (file1 (ctl w))) ∈ req_data r) \/
     (secondImageDiv_display (dom w1) = "none" /\ forall v, ("secondImage", v) ∉ req_data r)).
Proof.
  intros He Hfd Hf Hlen Hnum Hpr. cbv zeta. rewrite algorithmSelectionChange_effect. cbv zeta.
  destruct w as [d [fd al f0 f1 url] als pr rq dl ts]; cbn [ctl prompts formData file file1 requests] in *.
  subst fd f0 pr.
  lazymatch goal with |- context [st_exec processImageClick ?w1] =>
    destruct (click_refines_registry w1 a e f vals rest He) as [Hreq _]; try done end.
  exists (specRequest a e f f1 vals). split; [exact Hreq|].
  pose proof (registry_params_no_second a e He) as Hp. rewrite <- (registry_second a e He).
  destruct (entry_second e) eqn:Hs; [left | right]; (split; [done|]).
  - apply specRequest_secondImage; auto.
  - intros v Hv. apply specRequest_secondImage in Hv as [? _]; [congruence | exact Hp].
Qed.

End Composition.

(** Shift&Rescale with two valid answers on a fresh payload. *)
Lemma click_refines_registry_witness :
  requests (st_exec processImageClick (sampleWorld (Some "Shift&Rescale") [Some "2"; Some "0.5"] None)) =
  [specRequest "Shift&Rescale" (entryOf Mixed "Shift&Rescale") catFile None ["2"; "0.5"]].
Proof.
  destruct (click_refines_registry (sampleWorld (Some "Shift&Rescale") [Some "2"; Some "0.5"] None)
              "Shift&Rescale" (entryOf Mixed "Shift&Rescale") catFile ["2"; "0.5"] []
              ltac:(vm_compute; reflexivity) eq_refl eq_refl eq_refl eq_refl
              ltac:(repeat constructor) eq_refl) as [H _].
  exact H.
Defined.

(** "Bitwise Not": the control stays hidden and no second image is sent. *)
Lemma select_then_click_second_image_witness :
  let w1 := st_exec (algorithmSelectionChange "Bitwise Not") (sampleWorld None [] None) in
  let w2 := st_exec processImageClick w1 in
  exists r, requests w2 = requests (sampleWorld None [] None) ++ [r] /\
    ((secondImageDiv_display (dom w1) = "contents" /\
      ("secondImage", fileValue (file1 (ctl (sampleWorld None [] None)))) ∈ req_data r) \/
     (secondImageDiv_display (dom w1) = "none" /\ forall v, ("secondImage", v) ∉ req_data r)).
Proof.
  apply (select_then_click_second_image (sampleWorld None [] None) "Bitwise Not" (entryOf Bitwise "Bitwise Not")
           catFile [] []); [vm_compute; reflexivity | reflexivity | reflexivity | reflexivity | constructor | reflexivity].
Defined.

(** The sample page: its select starts empty. *)
Lemma ready_offers_registry_witness :
  NoDup (map opt_value (algorithmSelect (ready sampleDom))) /\
  (forall a, a ∈ map opt_value (algorithmSelect (ready sampleDom)) <-> is_Some (registry !! a)) /\
  (forall o, o ∈ algorithmSelect (ready sampleDom) -> algorithmLabels !! opt_value o = Some (opt_text o)).
Proof. apply (ready_offers_registry sampleDom). reflexivity. Defined.

End Registry.
