(* ===== verification/Answers.v ===== *)
(** Answers: what [promptNumber] (lines 199-204 of [src/static/script.js],
    one prompted numeric parameter) does with the answers a user types,
    under jQuery's [$.isNumeric] of [Numeric]: a string of decimal digits
    is accepted exactly when its value is below the binary64 overflow
    threshold, and whitespace around it is accepted too and posted as
    typed, untrimmed. *)

From S2P Require Import Prelude Browser Numeric Page Controller.

Module Answers.
Import Browser Numeric Page Controller.

(** The world after [promptNumber] consumed the answer [s]: accepted, the
    string is appended to the shared payload under [name]; rejected, the
    complaint is shown. *)
Definition accepted (name s : string) (rest : list (option string)) (w : World) : World :=
  mkWorld (dom w) (set_formData (formData (ctl w) ++ [(name, FVString s)]) (ctl w))
    (alerts w) rest (requests w) (downloads w) (tasks w).

Definition rejected (complaint : string) (rest : list (option string)) (w : World) : World :=
  mkWorld (dom w) (ctl w) (alerts w ++ [complaint]) rest (requests w) (downloads w) (tasks w).

(** One answer, whatever it is: the result and the world follow from
    [$.isNumeric] of the answer alone. *)
Lemma promptNumber_answer (w : World) question complaint name s rest :
  prompts w = Some s :: rest ->
  @promptNumber jQueryNumericTest question complaint name w =
  if jqIsNumeric (Some s) then (true, accepted name s rest w) else (false, rejected complaint rest w).
Proof.
  intros H. destruct w as [d c als pr rq dl ts]; cbn in H; subst pr.
  unfold promptNumber, st_bind, prompt. cbn [prompts].
  change (@isNumeric jQueryNumericTest) with jqIsNumeric.
  destruct (jqIsNumeric (Some s)); reflexivity.
Qed.

(** C26: whitespace around a numeric answer (any of ECMAScript's
    StrWhiteSpaceChar, e.g. spaces, tabs, line breaks, NBSP, in any
    number) does not change the verdict of [promptNumber], and the value
    posted is the answer as typed, whitespace included: the script never
    trims what it sends to the server. *)
Theorem promptNumber_padded (w : World) question complaint name pre ds post rest :
  ds <> [] -> allDigits ds ->
  Forall (fun sp => sp ∈ whiteSpaces) pre -> Forall (fun sp => sp ∈ whiteSpaces) post ->
  let typed := string_of_list_ascii (List.concat pre ++ ds ++ List.concat post) in
  prompts w = Some typed :: rest ->
  @promptNumber jQueryNumericTest question complaint name w =
  if (digitsValue ds <? overflowThreshold)%Z
  then (true, accepted name typed rest w)
  else (false, rejected complaint rest w).
Proof.
  intros Hne Hds Hpre Hpost typed Hpr. rewrite (promptNumber_answer w _ _ _ _ rest Hpr).
  unfold typed. by rewrite jqIsNumeric_padded_digits.
Qed.

(** ** Witnesses *)

(** " 2" followed by a tab: accepted, posted with its whitespace. *)
Lemma promptNumber_padded_witness :
  @promptNumber jQueryNumericTest "Insert n" "Insert a number!" "nBit"
    (sampleWorld None [Some (string_of_list_ascii (List.concat [bytes [32]] ++ ["2"%char] ++ List.concat [bytes [9]]))] None) =
  (true, accepted "nBit" (string_of_list_ascii (List.concat [bytes [32]] ++ ["2"%char] ++ List.concat [bytes [9]])) []
           (sampleWorld None [Some (string_of_list_ascii (List.concat [bytes [32]] ++ ["2"%char] ++ List.concat [bytes [9]]))] None)).
Proof.
  rewrite (promptNumber_padded _ "Insert n" "Insert a number!" "nBit" [bytes [32]] ["2"%char] [bytes [9]] []);
    [ | discriminate | repeat constructor
      | constructor; [apply (bool_decide_unpack _); vm_compute; reflexivity | constructor]
      | constructor; [apply (bool_decide_unpack _); vm_compute; reflexivity | constructor]
      | reflexivity].
  vm_compute. reflexivity.
Defined.

End Answers.
