(* ===== verification/Preview.v ===== *)
(** Preview: the first image's way from the file input to the page.
    [uploadFirstImage()] (lines 176-194 of [src/static/script.js]) reads
    the chosen file with [readAsDataURL]; its [onload] callback puts the
    result in [#originalImage]'s [src] and re-runs [buttonsRules].  The
    image element then decodes the data URL (RFC 2397, with the base64 of
    RFC 4648): [parseDataURL] is that decoding, and the theorem of this
    file shows that the preview holds exactly the chosen file. *)

From S2P Require Import Prelude Catalog Browser Numeric Page Controller.

Module Preview.
Import Catalog Browser Numeric Page Controller.

(** The longest prefix of [l] without [c], and the rest. *)
Fixpoint breakAt (c : ascii) (l : list ascii) : list ascii * list ascii :=
  match l with
  | [] => ([], [])
  | d :: l' => if decide (d = c) then ([], l) else let (p, r) := breakAt c l' in (d :: p, r)
  end.

(** [data:<media type>;base64,<payload>]: the media type and the bytes. *)
Definition parseDataURL (url : string) : option (string * list ascii) :=
  match stripPrefix (list_ascii_of_string "data:") (list_ascii_of_string url) with
  | None => None
  | Some r =>
      let (mime, rest) := breakAt ";"%char r in
      match stripPrefix (list_ascii_of_string ";base64,") rest with
      | None => None
      | Some payload => (fun bytes => (string_of_list_ascii mime, bytes)) <$> unbase64 payload
      end
  end.

Lemma breakAt_app c p q : c ∉ p -> head q = Some c -> breakAt c (p ++ q) = (p, q).
Proof.
  intros Hc Hq. revert Hc. induction p as [|d p IH]; intros Hc; simpl.
  { destruct q as [|d q]; [done|]. injection Hq as ->. simpl. by rewrite decide_True. }
  rewrite decide_False by (intros ->; apply Hc; left).
  rewrite IH; [done|]. intros Hp. apply Hc. by right.
Qed.

(** The data URL of a file whose media type has no parameters decodes
    to its media type and its bytes. *)
Lemma parseDataURL_readAsDataURL f :
  ";"%char ∉ list_ascii_of_string (file_type f) ->
  parseDataURL (readAsDataURL f) = Some (file_type f, list_ascii_of_string (file_content f)).
Proof.
  intros Hsc. unfold parseDataURL, readAsDataURL.
  rewrite !list_ascii_of_string_app, stripPrefix_app.
  rewrite (breakAt_app _ _ _ Hsc) by reflexivity. rewrite (stripPrefix_app (list_ascii_of_string ";base64,")).
  rewrite unbase64_base64. cbn. by rewrite string_of_list_ascii_of_string.
Qed.

(** C2: choosing an image file for the first input and letting its
    [FileReader] load complete shows exactly that file: the load
    scheduled by the change handler carries a data URL, the [onload]
    callback puts it in the preview, the preview decodes to the file's
    media type and bytes (base64 round trip), the process button is
    enabled, and [file], which the next click submits, is the same file. *)
Theorem upload_preview_shows_file (w : World) f others :
  matchImage (file_type f) = true -> ";"%char ∉ list_ascii_of_string (file_type f) ->
  let w1 := st_exec (uploadFirstImageChange (f :: others)) w in
  exists url, tasks w1 = tasks w ++ [ReaderLoad FirstImage url] /\
    let w2 := st_exec (readerOnload FirstImage url) w1 in
    originalImage_src (dom w2) = Some url /\
    parseDataURL url = Some (file_type f, list_ascii_of_string (file_content f)) /\
    processButton_disabled (dom w2) = false /\ file (ctl w2) = Some f.
Proof.
  intros Him Hsc. exists (readAsDataURL f).
  destruct w as [d c als pr rq dl ts].
  unfold uploadFirstImageChange, readerOnload, st_exec, st_bind, modify_ctl, modify_dom, schedule, st_modify.
  rewrite Him. cbn. split; [done|]. split; [rewrite (proj1 (buttonsRules_srcs _)); reflexivity|].
  split; [by apply parseDataURL_readAsDataURL|]. split; [|done].
  rewrite buttonsRules_process. cbn. apply bool_decide_eq_false_2.
  intros H. apply (readAsDataURL_nonempty f). congruence.
Qed.

(** C28: a file of another type chosen for the second input is rejected
    with an alert and never previewed, yet [uploadSecondImage] has
    already assigned it to [file1]: the next click with an arithmetic
    operation selected sends that rejected file as [secondImage] (spec,
    section 4: a failed selection "leaves prior state untouched"). *)
Theorem rejected_second_file_is_sent (w : World) f others a :
  matchImage (file_type f) = false -> a ∈ categoryList Arithmetic -> algorithmSelected (ctl w) = Some a ->
  let w1 := st_exec (uploadSecondImageChange (f :: others)) w in
  alerts w1 = alerts w ++ ["Invalid file format. Please select an image file."] /\
  tasks w1 = tasks w /\ dom w1 = dom w /\
  requests (st_exec processImageClick w1) = requests w ++
    [mkRequest (Some url_arithmetic) "POST"
       (formData (ctl w) ++ [("image", fileValue (file (ctl w))); ("algorithm", FVString a);
                             ("secondImage", FVFile f)])].
Proof.
  intros Hm Ha Hal. destruct w as [d [fd al f0 f1 url] als pr rq dl ts]; cbn in Hal; subst al.
  unfold uploadSecondImageChange. rewrite Hm.
  cbv [st_bind st_exec modify_ctl alert st_modify]. cbn [ctl dom alerts tasks set_file1].
  split; [done|]. split; [done|]. split; [done|].
  run_click Ha.
Qed.

(** The cat picture of the sample page. *)
Lemma upload_preview_shows_file_witness :
  exists url, tasks (st_exec (uploadFirstImageChange [catFile]) (sampleWorld None [] None)) = [ReaderLoad FirstImage url] /\
    originalImage_src (dom (st_exec (readerOnload FirstImage url) (st_exec (uploadFirstImageChange [catFile]) (sampleWorld None [] None)))) = Some url /\
    parseDataURL url = Some ("image/png", list_ascii_of_string "abc") /\
    processButton_disabled (dom (st_exec (readerOnload FirstImage url) (st_exec (uploadFirstImageChange [catFile]) (sampleWorld None [] None)))) = false /\
    file (ctl (st_exec (readerOnload FirstImage url) (st_exec (uploadFirstImageChange [catFile]) (sampleWorld None [] None)))) = Some catFile.
Proof.
  apply (upload_preview_shows_file (sampleWorld None [] None) catFile []);
    [vm_compute; reflexivity | apply (bool_decide_unpack _); vm_compute; reflexivity].
Defined.

(** The sample page, Addition selected, a text file chosen as second image. *)
Definition notesFile : File := mkFile "notes.txt" "text/plain" "hello".

Lemma rejected_second_file_is_sent_witness :
  requests (st_exec processImageClick (st_exec (uploadSecondImageChange [notesFile]) (sampleWorld (Some "Addition") [] None))) =
  [mkRequest (Some url_arithmetic) "POST"
     [("image", FVFile catFile); ("algorithm", FVString "Addition"); ("secondImage", FVFile notesFile)]].
Proof.
  destruct (rejected_second_file_is_sent (sampleWorld (Some "Addition") [] None) notesFile [] "Addition")
    as (_ & _ & _ & H); [vm_compute; reflexivity | apply (bool_decide_unpack _); vm_compute; reflexivity | reflexivity |].
  exact H.
Defined.

End Preview.
