(* ===== verification/Payload.v ===== *)
(** Payload: the types of the multipart fields the script sends.  The
    processing API (spec, sections 4 and 6) takes a file under [image],
    the algorithm name under [algorithm], the numeric parameters
    [scalingFactor], [shiftingValue], [nBit] and [param] as strings, and
    the second file under [secondImage].  [fieldTyped] is that schema, as
    far as the script can meet it: [secondImage] may also be the string
    "undefined" ([FormData.append] of an unset [file1], lines 230 and
    237).  [Appends] is an effect discipline for the statements of the
    click handler ([src/static/script.js], lines 196-308): they only
    append well-typed entries to the shared [formData]. *)

From S2P Require Import Prelude Catalog Browser Numeric Page Controller EventLoop.

Module Payload.
Import Catalog Browser Numeric Page Controller EventLoop.

Definition paramFields : list string := ["scalingFactor"; "shiftingValue"; "nBit"; "param"].

(** The schema of one entry of the payload. *)
Definition fieldTyped (e : string * FormValue) : bool :=
  match e with
  | (n, FVFile _) => bool_decide (n = "image") || bool_decide (n = "secondImage")
  | (n, FVString s) =>
      bool_decide (n = "algorithm") || bool_decide (n ∈ paramFields) ||
      bool_decide (n = "secondImage") && bool_decide (s = "undefined")
  end.

Definition Typed (e : string * FormValue) : Prop := fieldTyped e = true.

(** [m] appends to [formData] only entries that satisfy [P]. *)
Definition Appends {A} (P : string * FormValue -> Prop) (m : M A) : Prop :=
  forall w, exists extra, formData (ctl (snd (m w))) = formData (ctl w) ++ extra /\ Forall P extra.

(** [m] sends one request whose payload is the [formData] it started
    from and entries satisfying [P], which it leaves in [formData]. *)
Definition PostsTyped (P : string * FormValue -> Prop) (m : M unit) : Prop :=
  forall w, exists url extra,
    requests (snd (m w)) = requests w ++ [mkRequest url "POST" (formData (ctl w) ++ extra)] /\
    formData (ctl (snd (m w))) = formData (ctl w) ++ extra /\ Forall P extra.

Section Appends.
Variable P : string * FormValue -> Prop.

Lemma Appends_ret {A} (a : A) : Appends P (st_ret a).
Proof. intros w. exists []. by rewrite app_nil_r. Qed.

Lemma Appends_bind {A B} (m : M A) (k : A -> M B) :
  Appends P m -> (forall a, Appends P (k a)) -> Appends P (st_bind m k).
Proof.
  intros Hm Hk w. unfold st_bind. destruct (Hm w) as (e1 & E1 & F1).
  destruct (m w) as [a w']. simpl in E1. destruct (Hk a w') as (e2 & E2 & F2).
  exists (e1 ++ e2). rewrite E2, E1, app_assoc. split; [done|]. by apply Forall_app.
Qed.

Lemma Appends_if {A} (b : bool) (m1 m2 : M A) : Appends P m1 -> Appends P m2 -> Appends P (if b then m1 else m2).
Proof. by destruct b. Qed.

Lemma Appends_get_ctl : Appends P get_ctl.
Proof. intros w. exists []. by rewrite app_nil_r. Qed.

Lemma Appends_alert msg : Appends P (alert msg).
Proof. intros w. exists []. by rewrite app_nil_r. Qed.

Lemma Appends_prompt msg : Appends P (prompt msg).
Proof. intros w. exists []. unfold prompt. destruct (prompts w); by rewrite app_nil_r. Qed.

Lemma Appends_url u : Appends P (modify_ctl (set_urlApiCall u)).
Proof. intros w. exists []. by rewrite app_nil_r. Qed.

Lemma Appends_append name v : P (name, v) -> Appends P (formData_append name v).
Proof. intros Hp w. exists [(name, v)]. split; [done|]. by constructor. Qed.

Lemma PostsTyped_ajax : PostsTyped P ajax.
Proof. intros w. exists (urlApiCall (ctl w)), []. rewrite !app_nil_r. done. Qed.

Lemma PostsTyped_seq (m : M unit) k : Appends P m -> Grows m -> PostsTyped P k -> PostsTyped P (m ;; k).
Proof.
  intros Ha Hg Hk w. unfold st_bind. destruct (Ha w) as (e & Ee & Fe). specialize (Hg w).
  destruct (m w) as [[] w'] eqn:E; simpl in Hg, Ee.
  destruct Hg as (_ & Hr & _). destruct (Hk w') as (url & extra & Hr' & Hf' & Fx).
  exists url, (e ++ extra). rewrite Hr', Hf', Hr, Ee, <- app_assoc.
  split; [done|]. split; [done|]. by apply Forall_app.
Qed.

End Appends.

(** ** The statements of the click handler are well typed *)

Lemma Typed_param name v : name ∈ paramFields -> Typed (name, stringValue v).
Proof. intros Hn. unfold Typed, fieldTyped, stringValue. rewrite (bool_decide_eq_true_2 _ Hn). by rewrite orb_true_r. Qed.

Lemma Typed_second o : Typed ("secondImage", fileValue o).
Proof. destruct o; reflexivity. Qed.

Lemma Typed_algorithm v : Typed ("algorithm", stringValue v).
Proof. reflexivity. Qed.

Section Typing.
Context `{NT : NumericTest}.

Lemma Appends_promptNumber question complaint name :
  name ∈ paramFields -> Appends Typed (promptNumber question complaint name).
Proof.
  intros Hn. unfold promptNumber, return_, continue_. apply Appends_bind; [apply Appends_prompt|]. intros v.
  apply Appends_if; repeat apply Appends_bind; intros;
    auto using Appends_alert, Appends_ret, Appends_append, Typed_param.
Qed.

End Typing.

Create HintDb appends discriminated.
#[export] Hint Resolve Appends_ret Appends_get_ctl Appends_alert Appends_prompt Appends_url
  Appends_promptNumber Typed_second : appends.
#[export] Hint Extern 1 (_ ∈ paramFields) => apply (bool_decide_unpack _); reflexivity : appends.
#[export] Hint Extern 1 (Appends _ (formData_append _ _)) => apply Appends_append : appends.

Ltac solve_appends :=
  unfold seqR, whenSelected, continue_, return_, skip;
  repeat (intros; first [solve [eauto with appends] | apply Appends_bind | apply Appends_if]).

Section Process.
Context `{NT : NumericTest}.

Lemma processMixedAlgorithms_appends : Appends Typed processMixedAlgorithms.
Proof. unfold processMixedAlgorithms. solve_appends. Qed.
Lemma processArithmeticAlgorithms_appends : Appends Typed processArithmeticAlgorithms.
Proof. unfold processArithmeticAlgorithms. solve_appends. Qed.
Lemma processBitOperationsAlgorithms_appends : Appends Typed processBitOperationsAlgorithms.
Proof. unfold processBitOperationsAlgorithms. solve_appends. Qed.
Lemma processConvolutions_appends : Appends Typed processConvolutions.
Proof. unfold processConvolutions. solve_appends. Qed.
Lemma processTransformations_appends : Appends Typed processTransformations.
Proof. unfold processTransformations. solve_appends. Qed.

Lemma dispatch_appends l (p : M bool) : Appends Typed p -> Appends Typed (dispatch l p).
Proof. intros Hp. unfold dispatch. solve_appends. Qed.

(** The request of a click with a first file chosen: the old [formData],
    the file, the algorithm and well-typed entries of the [process*]
    function. *)
Lemma processImageClick_typed (w : World) f :
  file (ctl w) = Some f ->
  exists url extra,
    requests (st_exec processImageClick w) =
    requests w ++ [mkRequest url "POST" (formData (ctl w) ++
      [("image", FVFile f); ("algorithm", stringValue (algorithmSelected (ctl w)))] ++ extra)] /\
    formData (ctl (st_exec processImageClick w)) =
      formData (ctl w) ++ [("image", FVFile f); ("algorithm", stringValue (algorithmSelected (ctl w)))] ++ extra /\
    Forall Typed extra.
Proof.
  intros Hf.
  pose (tail := dispatch mixedAlgorithms processMixedAlgorithms ;;
                dispatch arithmeticOperations processArithmeticAlgorithms ;;
                dispatch bitOperations processBitOperationsAlgorithms ;;
                dispatch convolutions processConvolutions ;;
                dispatch transformations processTransformations ;; ajax).
  assert (Ht : PostsTyped Typed tail).
  { unfold tail. repeat apply PostsTyped_seq; auto using dispatch_appends, dispatch_grows, PostsTyped_ajax,
      processMixedAlgorithms_appends, processArithmeticAlgorithms_appends,
      processBitOperationsAlgorithms_appends, processConvolutions_appends, processTransformations_appends,
      processMixedAlgorithms_grows, processArithmeticAlgorithms_grows,
      processBitOperationsAlgorithms_grows, processConvolutions_grows, processTransformations_grows. }
  pose (w2 := snd (formData_append "algorithm" (stringValue (algorithmSelected (ctl w)))
                    (snd (formData_append "image" (fileValue (file (ctl w))) w)))).
  change (st_exec processImageClick w) with (snd (tail w2)).
  destruct (Ht w2) as (url & extra & H1 & H2 & H3).
  exists url, extra. rewrite H1, H2. cbn. unfold append, fileValue. rewrite Hf, <- !app_assoc. done.
Qed.

End Process.

(** ** Every payload of a reachable page is well typed *)

Definition PayloadTyped (w : World) : Prop :=
  Forall Typed (formData (ctl w)) /\ Forall (fun r => Forall Typed (req_data r)) (requests w).

Lemma PayloadTyped_same w w' :
  formData (ctl w') = formData (ctl w) -> requests w' = requests w -> PayloadTyped w -> PayloadTyped w'.
Proof. intros Hf Hr. unfold PayloadTyped. by rewrite Hf, Hr. Qed.

Lemma PayloadTyped_reset w w' :
  formData (ctl w') = [] -> requests w' = requests w -> PayloadTyped w -> PayloadTyped w'.
Proof. intros Hf Hr [_ Hq]. split; [rewrite Hf; constructor | by rewrite Hr]. Qed.

Lemma PayloadTyped_process `{NumericTest} w answers :
  processButton_disabled (dom w) = false -> Inv w -> PayloadTyped w ->
  PayloadTyped (set_prompts [] (st_exec processImageClick (set_prompts answers w))).
Proof.
  intros Hen (Hp & _ & _ & Hf & _) [Hfd Hq].
  assert (Hsrc : originalImage_src (dom w) <> Some "")
    by (intros E; rewrite Hp, (bool_decide_eq_true_2 _ E) in Hen; discriminate).
  destruct (Hf Hsrc) as [f Hfile].
  destruct (processImageClick_typed (set_prompts answers w) f Hfile) as (url & extra & H1 & H2 & H3).
  unfold PayloadTyped, set_prompts in *; cbn [ctl requests] in *. rewrite H1, H2.
  assert (Hpay : Forall Typed (formData (ctl w) ++
    [("image", FVFile f); ("algorithm", stringValue (algorithmSelected (ctl w)))] ++ extra)).
  { apply Forall_app; split; [exact Hfd|]. constructor; [reflexivity|]. constructor; [apply Typed_algorithm | exact H3]. }
  split; [exact Hpay|]. apply Forall_app; split; [exact Hq | by repeat constructor].
Qed.

Lemma step_PayloadTyped `{NumericTest} w w' : step w w' -> Inv w -> PayloadTyped w -> PayloadTyped w'.
Proof.
  intros Hst HI HT. destruct Hst as [w i o _|w [|f others]|w [|f others]|w answers Hen|w _ _|w k slot url _
                                     |w k id response _|w k id _].
  - destruct (exec_algorithmSelectionChange w (opt_value o)) as (disp & als & ->). exact HT.
  - exact HT.
  - destruct (exec_uploadFirstImageChange w f others) as (als & ->). exact HT.
  - exact HT.
  - destruct (exec_uploadSecondImageChange w f others) as (als & ->). exact HT.
  - by apply PayloadTyped_process.
  - unfold st_exec, saveImageClick. destruct (saveImage (dom w)); exact HT.
  - apply (PayloadTyped_same w); [by destruct slot | by destruct slot | exact HT].
  - by apply (PayloadTyped_reset w).
  - by apply (PayloadTyped_reset w).
Qed.

Section Properties.
Context `{NT : NumericTest}.

(** C27: every request a reachable page sends is well typed: each entry
    is a file under [image] (never the string "undefined"), a string
    under [algorithm] or one of the four parameter names, or, under
    [secondImage], a file or the string "undefined"; no other field name
    is ever sent. *)
Theorem reachable_payloads_typed d w :
  originalImage_src d = Some "" -> reachable d w ->
  Forall (fun r => Forall (fun e => fieldTyped e = true) (req_data r)) (requests w).
Proof.
  intros Hd Hr.
  enough (Inv w /\ PayloadTyped w) as [_ [_ Hq]] by exact Hq.
  apply (rtc_ind_r (R := step) (fun w => Inv w /\ PayloadTyped w) (init d)); [| | exact Hr].
  - split; [by apply Inv_init | split; constructor].
  - intros y z _ Hyz [HI HT]. split; [eapply step_Inv | eapply step_PayloadTyped]; eassumption.
Qed.

End Properties.

(** The Sobel X request of the sample run. *)
Lemma reachable_payloads_typed_witness :
  Forall (fun r => Forall (fun e => fieldTyped e = true) (req_data r)) (requests sobelSent).
Proof. apply (reachable_payloads_typed blankPage sobelSent); [reflexivity | exact sobelSent_reachable]. Defined.

End Payload.
