(* ===== verification/Repeat.v ===== *)
(** Repeat: repeated identical input.  The spec (section 4) says every
    handler "is idempotent with respect to repeated identical input".
    For the change handler of the select ([algorithmSelection()], lines
    145-155 of [src/static/script.js]) this holds of the page and of the
    closure variables, which end in the state one choice gives, but the
    warning [alert] is shown again each time;
    a repeated click is not idempotent at all (a second request, see
    [EventLoop.reentrant_submit_duplicates]). *)

From S2P Require Import Prelude Catalog Browser Page Controller.

Module Repeat.
Import Catalog Browser Page Controller.

(** The display of [#second-image-div] and the selected algorithm are
    plain assignments: assigning twice is assigning once. *)
Lemma set_secondImageDiv_display_twice v d :
  set_secondImageDiv_display v (set_secondImageDiv_display v d) = set_secondImageDiv_display v d.
Proof. by destruct d. Qed.

Lemma set_algorithmSelected_twice v c :
  set_algorithmSelected v (set_algorithmSelected v c) = set_algorithmSelected v c.
Proof. by destruct c. Qed.

(** C29: choosing the same algorithm twice leads to the state one choice
    leads to: [algorithmSelected] holds the value and [#second-image-div]
    is shown exactly for the arithmetic operations and the bitwise ones
    other than "Bitwise Not"; the second choice leaves the page, the
    closure variables, the prompts, the requests and the tasks as the
    first left them; only the warning "Upload a second image to use this
    algorithm!" is shown again, for the algorithms that need a second
    image. *)
Theorem algorithmSelection_idempotent (w : World) v :
  let w1 := st_exec (algorithmSelectionChange v) w in
  let w2 := st_exec (algorithmSelectionChange v) w1 in
  let show := bool_decide ((v ∈ arithmeticOperations \/ v ∈ bitOperations) /\ v <> "Bitwise Not") in
  algorithmSelected (ctl w2) = Some v /\
  secondImageDiv_display (dom w2) = (if show then "contents" else "none") /\
  dom w2 = dom w1 /\ ctl w2 = ctl w1 /\ requests w2 = requests w1 /\ tasks w2 = tasks w1 /\
  prompts w2 = prompts w1 /\
  alerts w2 = alerts w1 ++ (if show then ["Upload a second image to use this algorithm!"] else []).
Proof.
  cbv zeta. rewrite !algorithmSelectionChange_effect. cbv zeta.
  destruct (bool_decide _); cbn [dom ctl alerts prompts requests tasks];
    rewrite ?set_secondImageDiv_display_twice, ?set_algorithmSelected_twice, ?app_nil_r;
    destruct w as [[] [] ? ? ? ? ?]; repeat split.
Qed.

End Repeat.
