(* ===== verification/Save.v ===== *)
(** Save: [buttonsRules()] (lines 80-92 of [src/static/script.js])
    against the spec's [refreshButtonState()], and the click handler of
    [#saveImage-button] ([saveImage()], lines 130-142 and 268-270)
    against the spec's [saveResult()] (section 4): download the displayed
    result under a fixed name if there is one, otherwise alert that there
    is nothing to save.  [if (imageSrc)] tests truthiness, so both an
    absent [src] and the empty one count as "no result". *)

From S2P Require Import Prelude Browser Page Controller.

Module Save.
Import Browser Page Controller.

(** C30: a click on the save button downloads the result image's source
    as "resultImage.jpg" exactly when that source is a non-empty string,
    and otherwise shows "No image to save!" and downloads nothing; it
    never changes the page, the closure variables, the requests or the
    tasks. *)
Theorem saveImageClick_contract (w : World) :
  let w' := st_exec saveImageClick w in
  (forall s, resultImage_src (dom w) = Some s -> s <> "" ->
     downloads w' = downloads w ++ [(s, "resultImage.jpg")] /\ alerts w' = alerts w) /\
  (resultImage_src (dom w) = None \/ resultImage_src (dom w) = Some "" ->
     downloads w' = downloads w /\ alerts w' = alerts w ++ ["No image to save!"]) /\
  dom w' = dom w /\ ctl w' = ctl w /\ requests w' = requests w /\ tasks w' = tasks w.
Proof.
  destruct w as [d c als pr rq dl ts]. unfold st_exec, saveImageClick, saveImage, alert, st_modify.
  cbn [dom]. destruct (resultImage_src d) as [s|] eqn:Hs.
  - case_bool_decide as He; cbn.
    + split; [intros s' [= <-] Hne; contradiction|]. split; [done|]. auto.
    + split; [intros s' [= <-] _; done|]. split; [intros [[=]|[=]]; contradiction|]. auto.
  - cbn. split; [intros s' [=]|]. auto.
Qed.

(** C31: [buttonsRules] against the spec's [refreshButtonState()]: the
    process button is disabled exactly when the preview's [src] is the
    empty string, and the save button is then disabled too; otherwise
    the save button's [disabled] flag is left as it was (its enabling,
    line 90, is commented out).  The save button is shown when the
    result's [src] is not the empty string, which includes a result
    image without any [src] ([undefined !== ""]), and it is never hidden
    again. *)
Theorem buttonsRules_contract (d : Dom) :
  processButton_disabled (buttonsRules d) = bool_decide (originalImage_src d = Some "") /\
  saveButton_disabled (buttonsRules d) =
    (if bool_decide (originalImage_src d = Some "") then true else saveButton_disabled d) /\
  saveButton_shown (buttonsRules d) = saveButton_shown d || bool_decide (resultImage_src d <> Some "").
Proof.
  unfold buttonsRules.
  destruct (bool_decide (originalImage_src d = Some "")) eqn:Ho;
    destruct (bool_decide (resultImage_src d = Some "")) eqn:Hr;
    rewrite ?bool_decide_not, ?Hr; cbn;
    rewrite ?Ho, ?Hr, ?orb_true_r, ?orb_false_r; auto.
Qed.

End Save.
