(* ===== verification/UIProtocol.v ===== *)
(** UIProtocol: the page's life cycle as the spec describes it (sections
    4, 5 and 8), as an abstract machine, and the refinement of that
    machine by the event loop of [EventLoop].  The abstract state records
    whether a first image is previewed, how many requests are in flight
    and whether a result is shown.  Its steps: nothing visible happens
    (a select change, a file choice, a save); the preview appears; a
    submission, only once an image is previewed; the answer to one of the
    requests in flight, which may show a result.  The abstraction [alpha]
    reads these three facts off a world: the [src] of [#originalImage]
    and of [#resultImage], and the [AjaxCall] tasks pending. *)

From S2P Require Import Prelude Catalog Browser Numeric Page Controller EventLoop.

Module UIProtocol.
Import Catalog Browser Numeric Page Controller EventLoop.

Record UI := mkUI { ui_previewed : bool; ui_inflight : nat; ui_result : bool }.

Inductive ui_step : UI -> UI -> Prop :=
  | ui_idle s : ui_step s s
  | ui_preview s : ui_step s (mkUI true (ui_inflight s) (ui_result s))
  | ui_submit s :
      ui_previewed s = true -> ui_step s (mkUI true (S (ui_inflight s)) (ui_result s))
  | ui_respond s shown :
      0 < ui_inflight s -> ui_step s (mkUI (ui_previewed s) (pred (ui_inflight s)) (ui_result s || shown)).

Definition ui_init : UI := mkUI false 0 false.

(** The requests in flight: the pending [AjaxCall] tasks. *)
Fixpoint inflight (ts : list Task) : nat :=
  match ts with
  | [] => 0
  | AjaxCall _ :: ts' => S (inflight ts')
  | ReaderLoad _ _ :: ts' => inflight ts'
  end.

Definition alpha (w : World) : UI :=
  mkUI (bool_decide (originalImage_src (dom w) <> Some "")) (inflight (tasks w))
       (bool_decide (resultImage_src (dom w) <> Some "")).

(** ** The pending requests *)

Lemma inflight_app ts ts' : inflight (ts ++ ts') = inflight ts + inflight ts'.
Proof. induction ts as [|[] ts IH]; cbn; lia. Qed.

Lemma inflight_delete_reader ts k slot url :
  ts !! k = Some (ReaderLoad slot url) -> inflight (delete k ts) = inflight ts.
Proof.
  revert k. induction ts as [|t ts IH]; intros [|k] Hk; cbn in Hk; try discriminate.
  - by injection Hk as ->.
  - destruct t; simpl; rewrite (IH k Hk); done.
Qed.

Lemma inflight_delete_ajax ts k id :
  ts !! k = Some (AjaxCall id) -> S (inflight (delete k ts)) = inflight ts.
Proof.
  revert k. induction ts as [|t ts IH]; intros [|k] Hk; cbn in Hk; try discriminate.
  - by injection Hk as ->.
  - destruct t; simpl; rewrite <- (IH k Hk); done.
Qed.

(** A world whose sources and pending requests are those of [w]. *)
Lemma alpha_same w w' :
  originalImage_src (dom w') = originalImage_src (dom w) ->
  resultImage_src (dom w') = resultImage_src (dom w) ->
  inflight (tasks w') = inflight (tasks w) -> alpha w' = alpha w.
Proof. intros H1 H2 H3. unfold alpha. by rewrite H1, H2, H3. Qed.

Lemma ui_step_same w w' :
  originalImage_src (dom w') = originalImage_src (dom w) ->
  resultImage_src (dom w') = resultImage_src (dom w) ->
  inflight (tasks w') = inflight (tasks w) -> ui_step (alpha w) (alpha w').
Proof. intros H1 H2 H3. rewrite (alpha_same w w' H1 H2 H3). apply ui_idle. Qed.

Lemma saveImageClick_dom_tasks w :
  dom (st_exec saveImageClick w) = dom w /\ tasks (st_exec saveImageClick w) = tasks w.
Proof. unfold st_exec, saveImageClick. destruct (saveImage (dom w)); done. Qed.

(** ** Every step of the event loop is a step of the protocol *)

(** The submission: the process button is only enabled with a preview. *)
Lemma refines_process `{NumericTest} w answers :
  processButton_disabled (dom w) = false -> Inv w ->
  ui_step (alpha w) (alpha (set_prompts [] (st_exec processImageClick (set_prompts answers w)))).
Proof.
  intros Hen (Hp & _).
  assert (Hprev : bool_decide (originalImage_src (dom w) <> Some "") = true).
  { apply bool_decide_eq_true_2. intros E. rewrite Hp, (bool_decide_eq_true_2 _ E) in Hen. discriminate. }
  destruct (processImageClick_effect (set_prompts answers w)) as (url & extra & _ & Ht & Hd & _).
  unfold alpha, set_prompts in *; cbn [dom tasks] in *. rewrite Hd, Ht, inflight_app, Hprev. cbn.
  rewrite Nat.add_1_r. by apply (ui_submit (mkUI _ _ _)).
Qed.

(** A [FileReader] load: the first one shows the preview (a data URL is
    never empty), the second one nothing the protocol sees. *)
Lemma refines_reader w k slot url :
  tasks w !! k = Some (ReaderLoad slot url) -> Inv w ->
  ui_step (alpha w) (alpha (st_exec (readerOnload slot url) (remove_task k w))).
Proof.
  intros Hk (_ & _ & _ & _ & Hr & _).
  destruct slot; unfold alpha, remove_task, readerOnload, st_exec, st_bind, modify_dom, st_modify;
    cbn [dom tasks snd]; rewrite (inflight_delete_reader _ _ _ _ Hk).
  - destruct (buttonsRules_srcs (set_originalImage_src (Some url) (dom w))) as (Hs & _ & Hres & _).
    rewrite Hs, Hres. cbn.
    destruct (Hr url (list_elem_of_lookup_2 _ _ _ Hk)) as [Hurl _].
    rewrite (bool_decide_eq_true_2 (Some url <> Some "")) by congruence.
    apply (ui_preview (mkUI _ _ _)).
  - apply ui_idle.
Qed.

(** The answer to a request in flight: success shows the result. *)
Lemma refines_response w k id d' shown :
  tasks w !! k = Some (AjaxCall id) ->
  originalImage_src d' = originalImage_src (dom w) ->
  bool_decide (resultImage_src d' <> Some "") = bool_decide (resultImage_src (dom w) <> Some "") || shown ->
  ui_step (alpha w) (mkUI (bool_decide (originalImage_src d' <> Some "")) (inflight (delete k (tasks w)))
                          (bool_decide (resultImage_src d' <> Some ""))).
Proof.
  intros Hk Hs Hres. rewrite Hs, Hres, <- (Nat.pred_succ (inflight (delete k _))), (inflight_delete_ajax _ _ _ Hk).
  apply (ui_respond (alpha w)). cbn. rewrite <- (inflight_delete_ajax _ _ _ Hk). lia.
Qed.

Lemma step_refines `{NumericTest} w w' : step w w' -> Inv w -> ui_step (alpha w) (alpha w').
Proof.
  intros Hst HI.
  destruct Hst as [w i o _|w [|f others]|w [|f others]|w answers Hen|w _ _|w k slot url Hk
                  |w k id response Hk|w k id Hk].
  - destruct (exec_algorithmSelectionChange w (opt_value o)) as (disp & als & ->). by apply ui_step_same.
  - apply ui_idle.
  - destruct (exec_uploadFirstImageChange w f others) as (als & ->).
    apply ui_step_same; [done|done|]. cbn. rewrite inflight_app. by destruct (matchImage _); cbn; lia.
  - apply ui_idle.
  - destruct (exec_uploadSecondImageChange w f others) as (als & ->).
    apply ui_step_same; [done|done|]. cbn. rewrite inflight_app. by destruct (matchImage _); cbn; lia.
  - by apply refines_process.
  - destruct (saveImageClick_dom_tasks w) as [Hd Ht]. apply ui_step_same; by rewrite ?Hd, ?Ht.
  - by apply refines_reader.
  - unfold alpha at 2, ajaxSuccess, remove_task, st_exec, st_bind, modify_dom, modify_ctl, st_modify.
    cbn [dom tasks snd].
    destruct (buttonsRules_srcs (set_resultImage_src (Some ("data:image/jpeg;base64," ++ response)%string) (dom w)))
      as (Hs & _ & Hres & _).
    apply (refines_response w k id _ true Hk Hs). rewrite Hres, orb_true_r. cbn.
    apply bool_decide_eq_true_2. intros [=].
  - unfold alpha at 2, ajaxError, remove_task, st_exec, st_bind, alert, modify_ctl, st_modify.
    cbn [dom tasks snd]. apply (refines_response w k id _ false Hk); [done | by rewrite orb_false_r].
Qed.

Section Properties.
Context `{NT : NumericTest}.

(** C32: the event loop refines the protocol.  On a page that starts
    without a preview and without a result, every reachable world is
    seen by [alpha] as a state the abstract machine reaches from
    [ui_init]: the script submits only once a first image is previewed,
    a result appears only as the answer to a request in flight, and the
    preview, once there, stays.  The machine itself allows several
    requests in flight, as the script does (the spec's section 5 asks
    for one). *)
Theorem reachable_refines_protocol d w :
  originalImage_src d = Some "" -> resultImage_src d = Some "" -> reachable d w ->
  rtc ui_step ui_init (alpha w).
Proof.
  intros Hd Hres Hr.
  enough (Inv w /\ rtc ui_step ui_init (alpha w)) as [_ H] by exact H.
  apply (rtc_ind_r (R := step) (fun w => Inv w /\ rtc ui_step ui_init (alpha w)) (init d)); [| | exact Hr].
  - split; [by apply Inv_init|].
    unfold alpha, init, ready. destruct (buttonsRules_srcs (set_algorithmSelect
      (translateAlgorithmOptions (setupSelectInputField (algorithmSelect d))) d)) as (Hs & _ & Hr' & _).
    cbn [dom tasks]. rewrite Hs, Hr'. cbn. rewrite Hd, Hres.
    rewrite !(bool_decide_eq_false_2 (Some "" <> Some "")) by tauto. apply rtc_refl.
  - intros y z _ Hyz [HI Hy]. split; [eapply step_Inv; eassumption|].
    eapply rtc_r; [exact Hy | eapply step_refines; eassumption].
Qed.

End Properties.

(** The sample run with the Sobel X request in flight. *)
Lemma reachable_refines_protocol_witness : rtc ui_step ui_init (alpha sobelSent).
Proof. apply (reachable_refines_protocol blankPage sobelSent); [reflexivity | reflexivity | exact sobelSent_reachable]. Defined.

End UIProtocol.
